(** * Sensor polling drivers: BMP280 barometer (baro.py) and MLX90393
      3-axis Hall sensor (3dh.py)

    The two Python scripts are embedded shallowly.  Python integers are [Z]
    (with the bit operators of [Z], which agree with Python's on unbounded
    two's-complement integers), Python floats are the binary64 numbers of
    [PrimFloat], the calibration dictionary [dig] is a [gmap string Z], Python
    exceptions are an explicit [outcome], and the I2C bus is an oracle that
    answers requests given the history of requests issued so far. *)

From Stdlib Require Import ZArith QArith Qabs Floats Lia List Bool.
From stdpp Require Import gmap strings.

Local Open Scope Z_scope.

(** ** Python runtime: exceptions, sequences, dictionaries, floats *)

Module Py.

(** The exceptions the two scripts can raise or catch. *)
Inductive exn : Type :=
| OSError
| IndexError
| KeyError (key : string)
| ZeroDivisionError
| OverflowError
| KeyboardInterrupt
| SystemExit.

Inductive outcome (A : Type) : Type :=
| Ret (a : A)
| Raise (e : exn).
Arguments Ret {A} a.
Arguments Raise {A} e.

Definition bind {A B} (c : outcome A) (k : A -> outcome B) : outcome B :=
  match c with
  | Ret a => k a
  | Raise e => Raise e
  end.

(** [data[i]] on a list: negative indices count from the end, anything out
    of range raises [IndexError]. *)
Definition list_getitem (data : list Z) (i : Z) : outcome Z :=
  let n := Z.of_nat (length data) in
  let j := if i <? 0 then i + n else i in
  if (0 <=? j) && (j <? n)
  then match data !! Z.to_nat j with
       | Some v => Ret v
       | None => Raise IndexError
       end
  else Raise IndexError.

(** [d[k]] on a dictionary: a missing key raises [KeyError]. *)
Definition dict_getitem (d : gmap string Z) (k : string) : outcome Z :=
  match d !! k with
  | Some v => Ret v
  | None => Raise (KeyError k)
  end.

(** [float(n)] for a Python integer, as done implicitly by mixed
    arithmetic: the nearest binary64 number (ties to even).  CPython raises
    [OverflowError] where this yields an infinity, i.e. only for
    [|n| >= 2^1024]. *)
Definition float_of_Z (n : Z) : float :=
  SF2Prim (binary_normalize prec emax n 0 false).

(** Float true division [x / y]: a zero divisor raises
    [ZeroDivisionError]; otherwise the IEEE quotient. *)
Definition fdiv (x y : float) : outcome float :=
  if (y =? 0)%float then Raise ZeroDivisionError else Ret (x / y)%float.

(** [x ** 2] on a float.  CPython's [float_pow] answers NaN, infinite and
    zero bases itself, with the values IEEE multiplication gives for
    [x * x]; otherwise it calls the C library's [pow (x, 2.0)], taken here to
    be the correctly rounded square, and raises [OverflowError] when that is
    out of range. *)
Definition fpow2 (x : float) : outcome float :=
  let r := (x * x)%float in
  if is_finite x && is_infinity r then Raise OverflowError else Ret r.

(** A byte as [smbus] hands it out. *)
Definition is_byte (b : Z) : Prop := 0 <= b <= 255.

(** Exact rational value of a finite float. *)
Definition float_to_Q (x : float) : option Q :=
  match Prim2SF x with
  | S754_zero _ => Some 0%Q
  | S754_finite s m e =>
      let v := if s then Zneg m else Zpos m in
      Some (if (0 <=? e)%Z then inject_Z (v * 2 ^ e)
            else Qmake v (Z.to_pos (2 ^ (- e))))
  | _ => None
  end.

End Py.

Export Py.

Declare Scope py_scope.
Delimit Scope py_scope with py.
Notation "'do' x <- c1 ; c2" := (Py.bind c1 (fun x => c2))
  (at level 10, x name, c1 at level 100, c2 at level 200) : py_scope.
Notation "'do' ' pat <- c1 ; c2" :=
  (Py.bind c1 (fun x => match x with pat => c2 end))
  (at level 10, pat pattern, c1 at level 100, c2 at level 200) : py_scope.

(** ** The SMBus device oracle *)

Module Bus.

Inductive request : Type :=
| WriteByte (addr val : Z)
| WriteByteData (addr reg val : Z)
| ReadBlockData (addr reg len : Z).

(** A bus answers a request knowing every request made before it.  [None]
    is a failed transfer ([smbus] raises [OSError]); for a write the payload
    of [Some] is ignored. *)
Definition SMBus : Type := list request -> request -> option (list Z).

(** Driver code runs against the request history and may raise. *)
Definition io (A : Type) : Type := list request -> outcome A * list request.

Definition ret {A} (a : A) : io A := fun h => (Ret a, h).
Definition raise {A} (e : exn) : io A := fun h => (Raise e, h).
Definition lift {A} (c : outcome A) : io A := fun h => (c, h).

Definition bind {A B} (c : io A) (k : A -> io B) : io B :=
  fun h =>
    match c h with
    | (Ret a, h') => k a h'
    | (Raise e, h') => (Raise e, h')
    end.

(** [try: c except E: handler], with [catches] selecting the exceptions of
    the [except] clause. *)
Definition try_except {A} (c : io A) (catches : exn -> bool) (handler : io A) : io A :=
  fun h =>
    match c h with
    | (Ret a, h') => (Ret a, h')
    | (Raise e, h') => if catches e then handler h' else (Raise e, h')
    end.

Definition is_OSError (e : exn) : bool :=
  match e with OSError => true | _ => false end.

Section Ops.
Variable bus : SMBus.

Definition transact (r : request) : io (list Z) :=
  fun h =>
    match bus h r with
    | Some data => (Ret data, h ++ [r])
    | None => (Raise OSError, h ++ [r])
    end.

Definition write_byte (addr val : Z) : io unit :=
  bind (transact (WriteByte addr val)) (fun _ => ret tt).

Definition write_byte_data (addr reg val : Z) : io unit :=
  bind (transact (WriteByteData addr reg val)) (fun _ => ret tt).

Definition read_i2c_block_data (addr reg len : Z) : io (list Z) :=
  transact (ReadBlockData addr reg len).
End Ops.

(** A transport on which every block read fails. *)
Definition reads_fail (bus : SMBus) : Prop :=
  forall h addr reg len, bus h (ReadBlockData addr reg len) = None.

End Bus.

Declare Scope io_scope.
Delimit Scope io_scope with io.
Notation "'do' x <- c1 ; c2" := (Bus.bind c1 (fun x => c2))
  (at level 10, x name, c1 at level 100, c2 at level 200) : io_scope.
Notation "'do' ' pat <- c1 ; c2" :=
  (Bus.bind c1 (fun x => match x with pat => c2 end))
  (at level 10, pat pattern, c1 at level 100, c2 at level 200) : io_scope.
Notation "'run' c1 ; c2" := (Bus.bind c1 (fun _ => c2))
  (at level 10, c1 at level 100, c2 at level 200) : io_scope.

(** ** baro.py *)

Module Baro.

Import Bus.

Definition DEVICE_ADDR : Z := 0x76.
Definition REG_DATA : Z := 0xF7.
Definition REG_CONTROL : Z := 0xF4.
Definition REG_CONFIG : Z := 0xF5.
Definition REG_CALIB : Z := 0x88.

Definition get_short (data : list Z) (index : Z) : outcome Z :=
  (do hi <- list_getitem data (index + 1) ;
   do lo <- list_getitem data index ;
   Ret (Z.shiftl hi 8 + lo))%py.

Definition get_ushort (data : list Z) (index : Z) : outcome Z :=
  (do hi <- list_getitem data (index + 1) ;
   do lo <- list_getitem data index ;
   Ret (Z.shiftl hi 8 + lo))%py.

(** The inline pattern of [read_calibration_data]:
    [v = (calib[i+1] << 8) | calib[i]; if v > 32767: v -= 65536]. *)
Definition signed_field (calib : list Z) (i : Z) : outcome Z :=
  (do hi <- list_getitem calib (i + 1) ;
   do lo <- list_getitem calib i ;
   let v := Z.lor (Z.shiftl hi 8) lo in
   Ret (if v >? 32767 then v - 65536 else v))%py.

(** The body of [read_calibration_data] after the block read. *)
Definition parse_calibration (calib : list Z) : outcome (gmap string Z) :=
  (let dig : gmap string Z := ∅ in
   do v <- get_ushort calib 0 ; let dig := <["T1" := v]> dig in
   do v <- signed_field calib 2 ; let dig := <["T2" := v]> dig in
   do v <- signed_field calib 4 ; let dig := <["T3" := v]> dig in
   do v <- get_ushort calib 6 ; let dig := <["P1" := v]> dig in
   do v <- signed_field calib 8 ; let dig := <["P2" := v]> dig in
   do v <- signed_field calib 10 ; let dig := <["P3" := v]> dig in
   do v <- signed_field calib 12 ; let dig := <["P4" := v]> dig in
   do v <- signed_field calib 14 ; let dig := <["P5" := v]> dig in
   do v <- signed_field calib 16 ; let dig := <["P6" := v]> dig in
   do v <- signed_field calib 18 ; let dig := <["P7" := v]> dig in
   do v <- signed_field calib 20 ; let dig := <["P8" := v]> dig in
   do v <- signed_field calib 22 ; let dig := <["P9" := v]> dig in
   Ret dig)%py.

(** [(data[i] << 12) | (data[i+1] << 4) | (data[i+2] >> 4)] *)
Definition u20FromTriplet (msb lsb xlsb : Z) : Z :=
  Z.lor (Z.lor (Z.shiftl msb 12) (Z.shiftl lsb 4)) (Z.shiftr xlsb 4).

Local Open Scope float_scope.

(** Lines 80-82 of [read_data]: the temperature steps, yielding [t_fine]. *)
Definition temperature_fine (dig : gmap string Z) (adc_t : Z) : outcome float :=
  (do a <- fdiv (float_of_Z adc_t) 16384.0 ;
   do T1 <- dict_getitem dig "T1" ;
   do b <- fdiv (float_of_Z T1) 1024.0 ;
   do T2 <- dict_getitem dig "T2" ;
   let var1 := (a - b) * float_of_Z T2 in
   do a <- fdiv (float_of_Z adc_t) 131072.0 ;
   do T1 <- dict_getitem dig "T1" ;
   do b <- fdiv (float_of_Z T1) 8192.0 ;
   do s <- fpow2 (a - b) ;
   do T3 <- dict_getitem dig "T3" ;
   let var2 := s * float_of_Z T3 in
   Ret (var1 + var2))%py.

(** Lines 86-91: the pressure set-up, yielding the final [(var1, var2)]. *)
Definition pressure_setup (dig : gmap string Z) (t_fine : float)
  : outcome (float * float) :=
  (do h <- fdiv t_fine 2.0 ;
   let var1 := h - 64000.0 in
   do P6 <- dict_getitem dig "P6" ;
   do var2 <- fdiv (var1 * var1 * float_of_Z P6) 32768.0 ;
   do P5 <- dict_getitem dig "P5" ;
   let var2 := var2 + var1 * float_of_Z P5 * 2.0 in
   do q <- fdiv var2 4.0 ;
   do P4 <- dict_getitem dig "P4" ;
   let var2 := q + float_of_Z P4 * 65536.0 in
   do P3 <- dict_getitem dig "P3" ;
   do q <- fdiv (float_of_Z P3 * var1 * var1) 524288.0 ;
   do P2 <- dict_getitem dig "P2" ;
   do var1 <- fdiv (q + float_of_Z P2 * var1) 524288.0 ;
   do q <- fdiv var1 32768.0 ;
   do P1 <- dict_getitem dig "P1" ;
   let var1 := (1.0 + q) * float_of_Z P1 in
   Ret (var1, var2))%py.

(** Lines 93-100: the guarded division, yielding [pressure] in pascals.  In
    the degenerate branch [pressure] is the integer [0]; line 103 divides it
    by [100.0], which converts it to a float first. *)
Definition pressure_pascal (dig : gmap string Z) (adc_p : Z) (var1 var2 : float)
  : outcome float :=
  if var1 =? 0 then Ret (float_of_Z 0)
  else
    (let p := 1048576.0 - float_of_Z adc_p in
     do q <- fdiv var2 4096.0 ;
     do p <- fdiv ((p - q) * 6250.0) var1 ;
     do P9 <- dict_getitem dig "P9" ;
     do var1 <- fdiv (float_of_Z P9 * p * p) 2147483648.0 ;
     do P8 <- dict_getitem dig "P8" ;
     do var2 <- fdiv (p * float_of_Z P8) 32768.0 ;
     do P7 <- dict_getitem dig "P7" ;
     do q <- fdiv (var1 + var2 + float_of_Z P7) 16.0 ;
     Ret (p + q))%py.

(** Lines 79-103: everything [read_data] does with the two raw codes. *)
Definition compensate (dig : gmap string Z) (adc_p adc_t : Z)
  : outcome (float * float) :=
  (do t_fine <- temperature_fine dig adc_t ;
   do temp_c <- fdiv t_fine 5120.0 ;
   do '(var1, var2) <- pressure_setup dig t_fine ;
   do pressure <- pressure_pascal dig adc_p var1 var2 ;
   do hpa <- fdiv pressure 100.0 ;
   Ret (temp_c, hpa))%py.

Local Close Scope float_scope.

(** Lines 76-77: the two raw 20-bit codes of a data frame. *)
Definition raw_codes (data : list Z) : outcome (Z * Z) :=
  (do d0 <- list_getitem data 0 ;
   do d1 <- list_getitem data 1 ;
   do d2 <- list_getitem data 2 ;
   let adc_p := u20FromTriplet d0 d1 d2 in
   do d3 <- list_getitem data 3 ;
   do d4 <- list_getitem data 4 ;
   do d5 <- list_getitem data 5 ;
   let adc_t := u20FromTriplet d3 d4 d5 in
   Ret (adc_p, adc_t))%py.

(** How the main program ends when one of its handlers runs: the
    [except OSError] clause reports that the sensor was not found, the
    [except KeyboardInterrupt] clause that the measurement was stopped. *)
Inductive ending : Type := SensorNotFound | MeasurementStopped.

Section Driver.
Variable bus : SMBus.

(** The loop body after [read_data]: altitude, [print] and [time.sleep].
    It is reporting glue that never touches the bus. *)
Variable report : float -> float -> outcome unit.

Definition read_calibration_data : io (gmap string Z) :=
  (do calib <- read_i2c_block_data bus DEVICE_ADDR REG_CALIB 24 ;
   lift (parse_calibration calib))%io.

Definition setup_sensor : io unit :=
  (run write_byte_data bus DEVICE_ADDR REG_CONTROL 0x27 ;
   write_byte_data bus DEVICE_ADDR REG_CONFIG 0xA0)%io.

Definition read_data (dig : gmap string Z) : io (float * float) :=
  (do data <- read_i2c_block_data bus DEVICE_ADDR REG_DATA 6 ;
   do '(adc_p, adc_t) <- lift (raw_codes data) ;
   lift (compensate dig adc_p adc_t))%io.

(** [while True: ...], interrupted from the keyboard after [n] complete
    cycles. *)
Fixpoint poll (n : nat) (calib_coeffs : gmap string Z) : io ending :=
  match n with
  | O => raise KeyboardInterrupt
  | S n' =>
      (do '(temp, press) <- read_data calib_coeffs ;
       run lift (report temp press) ;
       poll n' calib_coeffs)%io
  end.

Definition handled (e : exn) : bool :=
  match e with OSError | KeyboardInterrupt => true | _ => false end.

(** The main program: the [try] block and its two handlers. *)
Definition main (n : nat) : io ending :=
  fun h =>
    match (run setup_sensor ;
           do calib_coeffs <- read_calibration_data ;
           poll n calib_coeffs)%io h with
    | (Raise OSError, h') => (Ret SensorNotFound, h')
    | (Raise KeyboardInterrupt, h') => (Ret MeasurementStopped, h')
    | r => r
    end.
End Driver.

End Baro.

(** ** 3dh.py *)

Module Hall3dh.

Import Bus.

Definition DEVICE_ADDR : Z := 0x0C.
Definition CMD_SB : Z := 0x10.
Definition CMD_SM : Z := 0x30.
Definition CMD_RM : Z := 0x40.
Definition CMD_EX : Z := 0x80.
Definition AXIS_MASK : Z := 0x0E.

(** Lines 57 and 62 (and their copies for y and z):
    [x = (data[i] << 8) | data[i+1]; if x > 32767: x -= 65536]. *)
Definition beInt16 (hi lo : Z) : Z :=
  let x := Z.lor (Z.shiftl hi 8) lo in
  if x >? 32767 then x - 65536 else x.

(** Lines 57-66: decoding of a measurement frame. *)
Definition decode_axes (data : list Z) : outcome (Z * Z * Z) :=
  (do xh <- list_getitem data 1 ;
   do xl <- list_getitem data 2 ;
   do yh <- list_getitem data 3 ;
   do yl <- list_getitem data 4 ;
   do zh <- list_getitem data 5 ;
   do zl <- list_getitem data 6 ;
   Ret (beInt16 xh xl, beInt16 yh yl, beInt16 zh zl))%py.

Section Driver.
Variable bus : SMBus.

(** The C library's [pow], reached through Python's float [**]. *)
Variable float_pow : float -> float -> float.

(** [print] and [time.sleep] of the loop body. *)
Variable report : Z -> Z -> Z -> float -> outcome unit.

(** [exit()] after a failed write raises [SystemExit]. *)
Definition start_measurement : io unit :=
  let cmd := Z.lor CMD_SM AXIS_MASK in
  try_except (write_byte bus DEVICE_ADDR cmd) is_OSError (raise SystemExit).

(** [None] is Python's [None], returned when the block read fails. *)
Definition read_data : io (option (Z * Z * Z)) :=
  let cmd := Z.lor CMD_RM AXIS_MASK in
  fun h =>
    match read_i2c_block_data bus DEVICE_ADDR cmd 7 h with
    | (Raise OSError, h') => (Ret None, h')
    | (Raise e, h') => (Raise e, h')
    | (Ret data, h') =>
        (do xyz <- lift (decode_axes data) ; ret (Some xyz))%io h'
    end.

(** Line 86: [(x**2 + y**2 + z**2) ** 0.5]; the sum is an exact Python
    integer, converted to a float by the mixed-type power. *)
Definition magnitude (x y z : Z) : float :=
  float_pow (float_of_Z (x ^ 2 + y ^ 2 + z ^ 2)) 0.5%float.

(** One pass of the [while True] body. *)
Definition cycle : io unit :=
  (run start_measurement ;
   do values <- read_data ;
   match values with
   | Some (x, y, z) => lift (report x y z (magnitude x y z))
   | None => ret tt
   end)%io.

Fixpoint poll (n : nat) : io unit :=
  match n with
  | O => raise KeyboardInterrupt
  | S n' => (run cycle ; poll n')%io
  end.

Definition main (n : nat) : io unit :=
  fun h =>
    match poll n h with
    | (Raise KeyboardInterrupt, h') => (Ret tt, h')
    | r => r
    end.
End Driver.

End Hall3dh.

(** ** Vocabulary of the properties *)

(** *** Codec *)

(** The 24-bit big-endian, left-justified field formed by three bytes. *)
Definition field24 (msb lsb xlsb : Z) : Z := msb * 65536 + lsb * 256 + xlsb.

(** The two bytes of a signed 16-bit value, high byte first (Python's
    [v.to_bytes(2, 'big', signed=True)]). *)
Definition int16_bytes (v : Z) : Z * Z :=
  (Z.land (Z.shiftr v 8) 255, Z.land v 255).

(** The little-endian readings of the calibration block, in the words of
    the codec description: [leUint16] is [(hi << 8) | lo]; [leInt16]
    reinterprets it as two's complement, values from 0x8000 on having
    0x10000 subtracted. *)
Definition leUint16 (lo hi : Z) : Z := Z.lor (Z.shiftl hi 8) lo.

Definition leInt16 (lo hi : Z) : Z :=
  let u := leUint16 lo hi in
  if 0x8000 <=? u then u - 0x10000 else u.

(** The device's coefficient table: name, byte offset in the calibration
    block, and whether the field is signed. *)
Definition coefficient_table : list (string * nat * bool) :=
  [("T1", 0, false); ("T2", 2, true); ("T3", 4, true);
   ("P1", 6, false); ("P2", 8, true); ("P3", 10, true);
   ("P4", 12, true); ("P5", 14, true); ("P6", 16, true);
   ("P7", 18, true); ("P8", 20, true); ("P9", 22, true)]%nat.

(** The value the table prescribes for one coefficient of a frame. *)
Definition coefficient_value (calib : list Z) (off : nat) (signed : bool) : Z :=
  let lo := nth off calib 0 in
  let hi := nth (off + 1) calib 0 in
  if signed then leInt16 lo hi else leUint16 lo hi.

Definition coefficient_range (signed : bool) (v : Z) : Prop :=
  if signed then -32768 <= v <= 32767 else 0 <= v <= 65535.

(** Number of measurement channels selected by the four low bits of an
    axis mask. *)
Definition channel_count (mask : Z) : Z :=
  Z.b2z (Z.testbit mask 0) + Z.b2z (Z.testbit mask 1) +
  Z.b2z (Z.testbit mask 2) + Z.b2z (Z.testbit mask 3).

(** *** Floats *)

(** Relative tolerance: [x] is within the fraction [tol] of [ref]. *)
Definition within_rel (tol ref x : Q) : Prop :=
  (Qabs (x - ref) <= tol * Qabs ref)%Q.

(** A float that is a NaN or an infinity. *)
Definition special (x : float) : bool :=
  match Prim2SF x with
  | S754_nan | S754_infinity _ => true
  | _ => false
  end.

(** Invariant of the right shifts of binary64 rounding: the mantissa stays
    between 0 and [b]. *)
Definition nonneg_below (b : Z) (mrs : shr_record) : Prop := 0 <= shr_m mrs <= b.

(** Mantissa of the float [5120.0], whose exponent is [-40]. *)
Definition m5120 : positive := 5629499534213120.

(** *** Bus traffic *)

(** The requests the two drivers issue. *)
Definition baro_control_write : Bus.request :=
  Bus.WriteByteData Baro.DEVICE_ADDR Baro.REG_CONTROL 0x27.
Definition baro_config_write : Bus.request :=
  Bus.WriteByteData Baro.DEVICE_ADDR Baro.REG_CONFIG 0xA0.
Definition baro_calib_read : Bus.request :=
  Bus.ReadBlockData Baro.DEVICE_ADDR Baro.REG_CALIB 24.
Definition baro_data_read : Bus.request :=
  Bus.ReadBlockData Baro.DEVICE_ADDR Baro.REG_DATA 6.
Definition hall_start_write : Bus.request :=
  Bus.WriteByte Hall3dh.DEVICE_ADDR 0x3E.
Definition hall_measurement_read : Bus.request :=
  Bus.ReadBlockData Hall3dh.DEVICE_ADDR 0x4E 7.

(** A transport on which every single-byte write is acknowledged. *)
Definition byte_writes_succeed (bus : Bus.SMBus) : Prop :=
  forall h addr val, exists d, bus h (Bus.WriteByte addr val) = Some d.

(** The bus traffic of [n] magnetometer cycles. *)
Fixpoint hall_cycles (n : nat) : list Bus.request :=
  match n with
  | O => []
  | S n' => hall_start_write :: hall_measurement_read :: hall_cycles n'
  end.

(** The three ways the initialization of the barometer main program can
    fail on the bus, starting from history [h]: either configuration write
    or the calibration read is not answered. *)
Definition initialization_fails (bus : Bus.SMBus) (h : list Bus.request) : Prop :=
  bus h baro_control_write = None \/
  bus (h ++ [baro_control_write]) baro_config_write = None \/
  bus (h ++ [baro_control_write; baro_config_write]) baro_calib_read = None.

(** ** Concrete calibration sets, frames and transports *)

(** The reference calibration set of the Bosch data sheet. *)
Definition ref_dig : gmap string Z :=
  <["T1" := 27504]> (<["T2" := 26435]> (<["T3" := -1000]> (
  <["P1" := 36477]> (<["P2" := -10685]> (<["P3" := 3024]> (
  <["P4" := 2855]> (<["P5" := 140]> (<["P6" := -7]> (
  <["P7" := 15500]> (<["P8" := -14600]> (<["P9" := 6000]> ∅))))))))))).

(** The same set as the 24-byte block the device holds. *)
Definition ref_frame : list Z :=
  [0x70; 0x6B; 0x43; 0x67; 0x18; 0xFC; 0x7D; 0x8E; 0x43; 0xD6; 0xD0; 0x0B;
   0x27; 0x0B; 0x8C; 0x00; 0xF9; 0xFF; 0x8C; 0x3C; 0xF8; 0xC6; 0x70; 0x17].

(** The data frame encoding [adc_p = 415148] and [adc_t = 519888]. *)
Definition ref_data : list Z := [0x65; 0x5A; 0xC0; 0x7E; 0xED; 0x00].

(** The reference calibration set with [P1 = 0], the coefficient value for
    which the pressure set-up ends with [var1 = 0]. *)
Definition zero_P1_dig : gmap string Z := <["P1" := 0]> ref_dig.

(** A transport on which every transfer fails. *)
Definition dead_bus : Bus.SMBus := fun _ _ => None.

(** A transport on which writes succeed and every block read fails. *)
Definition write_only_bus : Bus.SMBus :=
  fun _ r => match r with Bus.ReadBlockData _ _ _ => None | _ => Some [] end.

(** A healthy barometer: it acknowledges writes, answers the calibration
    read with [ref_frame] and every data read with [ref_data]. *)
Definition steady_bus : Bus.SMBus :=
  fun _ r =>
    match r with
    | Bus.ReadBlockData _ reg _ =>
        if reg =? Baro.REG_DATA then Some ref_data else Some ref_frame
    | _ => Some []
    end.

(** A barometer whose register writes fail while its block reads answer as
    on [steady_bus]: configuration can never succeed on it. *)
Definition unconfigurable_bus : Bus.SMBus :=
  fun h r =>
    match r with
    | Bus.ReadBlockData _ _ _ => steady_bus h r
    | _ => None
    end.

(** A magnetometer that answers every block read with one fixed frame:
    status 0x03, then x = -200, y = 300, z = -1 as big-endian pairs. *)
Definition frame_bus : Bus.SMBus :=
  fun _ r =>
    match r with
    | Bus.ReadBlockData _ _ _ => Some [0x03; 0xFF; 0x38; 0x01; 0x2C; 0xFF; 0xFF]
    | _ => Some []
    end.

(** ** Vocabulary of the further properties *)

(** The three fields packed in a 20-bit raw code: the two full bytes and
    the high nibble of the third. *)
Definition u20_triplet (code : Z) : Z * Z * Z :=
  (Z.shiftr code 12, Z.land (Z.shiftr code 4) 255, Z.land code 15).

(** The names of the twelve coefficients. *)
Definition coefficient_names : list string :=
  map (fun e => fst (fst e)) coefficient_table.

(** A dictionary that holds every coefficient. *)
Definition complete_calibration (dig : gmap string Z) : Prop :=
  forall k, In k coefficient_names -> is_Some (dig !! k).

(** The exceptions the compensation arithmetic can raise on dictionary
    [dig]: an overflowing square, or the lookup of a coefficient that [dig]
    lacks. *)
Definition compensation_error (dig : gmap string Z) (e : exn) : Prop :=
  e = OverflowError \/
  exists k, e = KeyError k /\ In k coefficient_names /\ dig !! k = None.

(** The bus traffic of the barometer initialization, and of a whole run of
    [n] cycles on which nothing fails. *)
Definition baro_init : list Bus.request :=
  [baro_control_write; baro_config_write; baro_calib_read].

Definition baro_traffic (n : nat) : list Bus.request :=
  baro_init ++ repeat baro_data_read n.

(** A magnetometer that answers every block read with only three bytes. *)
Definition short_frame_bus : Bus.SMBus :=
  fun _ r =>
    match r with
    | Bus.ReadBlockData _ _ _ => Some [0x03; 0xFF; 0x38]
    | _ => Some []
    end.

(** * Properties *)

(** ** Bit-level facts *)

Section Bits.

Lemma land_shiftl_low (hi lo n : Z) :
  0 <= n -> 0 <= lo < 2 ^ n -> Z.land (Z.shiftl hi n) lo = 0.
Proof.
  intros Hn Hlo. apply Z.bits_inj'. intros i Hi.
  rewrite Z.land_spec, Z.bits_0.
  destruct (Z_lt_le_dec i n) as [Hlt | Hge].
  - rewrite Z.shiftl_spec_low by lia. reflexivity.
  - replace (Z.testbit lo i) with false; [apply andb_false_r |].
    symmetry. rewrite <- (Z.mod_small lo (2 ^ n)) by lia.
    apply Z.mod_pow2_bits_high. lia.
Qed.

Lemma lor_shiftl_add (hi lo n : Z) :
  0 <= n -> 0 <= lo < 2 ^ n -> Z.lor (Z.shiftl hi n) lo = hi * 2 ^ n + lo.
Proof.
  intros Hn Hlo.
  pose proof (Z.add_lor_land (Z.shiftl hi n) lo) as H.
  rewrite land_shiftl_low in H by assumption.
  rewrite Z.shiftl_mul_pow2 in * by assumption. lia.
Qed.

Lemma be16_value (hi lo : Z) :
  is_byte lo -> Z.lor (Z.shiftl hi 8) lo = hi * 256 + lo.
Proof.
  unfold is_byte. intros Hlo. rewrite lor_shiftl_add; lia.
Qed.

Lemma u20FromTriplet_value (msb lsb xlsb : Z) :
  is_byte lsb -> is_byte xlsb ->
  Baro.u20FromTriplet msb lsb xlsb = msb * 4096 + lsb * 16 + xlsb / 16.
Proof.
  unfold is_byte, Baro.u20FromTriplet. intros Hl Hx.
  rewrite (Z.shiftr_div_pow2 xlsb 4) by lia.
  rewrite (Z.shiftl_mul_pow2 lsb 4) by lia.
  change (2 ^ 4) with 16.
  assert (0 <= xlsb / 16 < 16)
    by (split; [apply Z.div_pos | apply Z.div_lt_upper_bound]; lia).
  rewrite (lor_shiftl_add msb (lsb * 16) 12) by lia.
  replace (msb * 2 ^ 12 + lsb * 16) with (Z.shiftl (msb * 256 + lsb) 4)
    by (rewrite Z.shiftl_mul_pow2; lia).
  rewrite lor_shiftl_add; lia.
Qed.

End Bits.

(** ** RegisterCodec: [beInt16] and [u20FromTriplet] *)

(** C6: for all bytes [hi], [lo], splitting [beInt16 hi lo] back into its
    two bytes gives [(hi, lo)]; the value is negative exactly when the
    unsigned combination [(hi << 8) | lo] is at least 0x8000 and non-negative
    exactly when it is below; it always lies in the signed 16-bit range. *)
Theorem beInt16_roundtrip_sign (hi lo : Z) :
  is_byte hi -> is_byte lo ->
  int16_bytes (Hall3dh.beInt16 hi lo) = (hi, lo) /\
  (Hall3dh.beInt16 hi lo < 0 <-> 0x8000 <= Z.lor (Z.shiftl hi 8) lo) /\
  (0 <= Hall3dh.beInt16 hi lo <-> Z.lor (Z.shiftl hi 8) lo < 0x8000) /\
  -32768 <= Hall3dh.beInt16 hi lo <= 32767.
Proof.
  intros Hhi Hlo. unfold Hall3dh.beInt16, int16_bytes.
  rewrite be16_value by assumption. unfold is_byte in *.
  change 255 with (Z.ones 8).
  rewrite !Z.land_ones, !Z.shiftr_div_pow2 by lia.
  change (2 ^ 8) with 256.
  destruct (Z.gtb_spec (hi * 256 + lo) 32767) as [Hneg | Hpos].
  - repeat split; try lia.
    f_equal; Z.div_mod_to_equations; lia.
  - repeat split; try lia.
    f_equal; Z.div_mod_to_equations; lia.
Qed.

Lemma beInt16_roundtrip_sign_witness :
  int16_bytes (Hall3dh.beInt16 0xFF 0x38) = (0xFF, 0x38) /\
  Hall3dh.beInt16 0xFF 0x38 = -200.
Proof.
  split; [| reflexivity].
  apply (beInt16_roundtrip_sign 0xFF 0x38); unfold is_byte; lia.
Defined.

(** C7: for all bytes, [u20FromTriplet] is below [2^20]; it never decreases
    when any of its arguments grows; and it is the 24-bit big-endian field
    with its four low bits dropped, hence ordered like the encoded value. *)
Theorem u20FromTriplet_bound_monotone (msb lsb xlsb : Z) :
  is_byte msb -> is_byte lsb -> is_byte xlsb ->
  0 <= Baro.u20FromTriplet msb lsb xlsb < 2 ^ 20 /\
  Baro.u20FromTriplet msb lsb xlsb = Z.shiftr (field24 msb lsb xlsb) 4 /\
  (forall msb' lsb' xlsb',
      is_byte msb' -> is_byte lsb' -> is_byte xlsb' ->
      msb <= msb' -> lsb <= lsb' -> xlsb <= xlsb' ->
      Baro.u20FromTriplet msb lsb xlsb <= Baro.u20FromTriplet msb' lsb' xlsb') /\
  (forall msb' lsb' xlsb',
      is_byte msb' -> is_byte lsb' -> is_byte xlsb' ->
      field24 msb lsb xlsb <= field24 msb' lsb' xlsb' ->
      Baro.u20FromTriplet msb lsb xlsb <= Baro.u20FromTriplet msb' lsb' xlsb') /\
  (forall msb' lsb' xlsb',
      is_byte msb' -> is_byte lsb' -> is_byte xlsb' ->
      Baro.u20FromTriplet msb lsb xlsb < Baro.u20FromTriplet msb' lsb' xlsb' ->
      field24 msb lsb xlsb < field24 msb' lsb' xlsb').
Proof.
  intros Hm Hl Hx.
  assert (Hshape : forall a b c, is_byte a -> is_byte b -> is_byte c ->
            Baro.u20FromTriplet a b c = field24 a b c / 16 /\
            0 <= field24 a b c < 2 ^ 24).
  { intros a b c Ha Hb Hc. rewrite u20FromTriplet_value by assumption.
    unfold field24, is_byte in *. split; [| lia].
    Z.div_mod_to_equations. lia. }
  destruct (Hshape msb lsb xlsb Hm Hl Hx) as [Heq Hrange].
  split; [| split; [| split; [| split]]].
  - rewrite Heq. change (2 ^ 20) with 1048576. change (2 ^ 24) with 16777216 in Hrange.
    Z.div_mod_to_equations. lia.
  - rewrite Heq, Z.shiftr_div_pow2 by lia. reflexivity.
  - intros a b c Ha Hb Hc Hma Hlb Hxc.
    destruct (Hshape a b c Ha Hb Hc) as [Heq' _]. rewrite Heq, Heq'.
    apply Z.div_le_mono; [lia |]. unfold field24, is_byte in *. lia.
  - intros a b c Ha Hb Hc Hle.
    destruct (Hshape a b c Ha Hb Hc) as [Heq' _]. rewrite Heq, Heq'.
    apply Z.div_le_mono; lia.
  - intros a b c Ha Hb Hc Hlt.
    destruct (Hshape a b c Ha Hb Hc) as [Heq' _]. rewrite Heq, Heq' in Hlt.
    Z.div_mod_to_equations. lia.
Qed.

Lemma u20FromTriplet_bound_monotone_witness :
  0 <= Baro.u20FromTriplet 0x65 0x5A 0xC0 < 2 ^ 20 /\
  Baro.u20FromTriplet 0x65 0x5A 0xC0 = 415148.
Proof.
  split; [| reflexivity].
  apply (u20FromTriplet_bound_monotone 0x65 0x5A 0xC0); unfold is_byte; lia.
Defined.

(** ** Indexing and the 16-bit helpers of baro.py *)

Section Indexing.

Lemma list_getitem_in_range (data : list Z) (i : Z) :
  0 <= i < Z.of_nat (length data) ->
  exists v, data !! Z.to_nat i = Some v /\ list_getitem data i = Ret v.
Proof.
  intros Hi. unfold list_getitem.
  destruct (Z.ltb_spec i 0); [lia |].
  destruct (Z.leb_spec 0 i); [| lia].
  destruct (Z.ltb_spec i (Z.of_nat (length data))); [| lia].
  destruct (lookup_lt_is_Some_2 data (Z.to_nat i)) as [v Hv]; [lia |].
  exists v. rewrite Hv. auto.
Qed.

Lemma list_getitem_byte (data : list Z) (i v : Z) :
  Forall is_byte data -> list_getitem data i = Ret v -> is_byte v.
Proof.
  intros Hall. unfold list_getitem.
  destruct (_ && _); [| discriminate].
  destruct (data !! _) as [w |] eqn:Hw; [| discriminate].
  intros [= <-]. exact (Forall_lookup_1 _ _ _ _ Hall Hw).
Qed.

Lemma get_ushort_in_range (data : list Z) (i : nat) :
  (i + 1 < length data)%nat ->
  exists lo hi, data !! i = Some lo /\ data !! (i + 1)%nat = Some hi /\
                Baro.get_ushort data (Z.of_nat i) = Ret (Z.shiftl hi 8 + lo).
Proof.
  intros Hi. unfold Baro.get_ushort.
  destruct (list_getitem_in_range data (Z.of_nat i + 1)) as (hi & Hhi & ->); [lia |].
  destruct (list_getitem_in_range data (Z.of_nat i)) as (lo & Hlo & ->); [lia |].
  exists lo, hi. rewrite Nat2Z.id in Hlo.
  replace (Z.to_nat (Z.of_nat i + 1)) with (i + 1)%nat in Hhi by lia.
  auto.
Qed.

Lemma signed_field_in_range (calib : list Z) (i : nat) :
  (i + 1 < length calib)%nat ->
  exists lo hi, calib !! i = Some lo /\ calib !! (i + 1)%nat = Some hi /\
                Baro.signed_field calib (Z.of_nat i) =
                  Ret (let v := Z.lor (Z.shiftl hi 8) lo in
                       if v >? 32767 then v - 65536 else v).
Proof.
  intros Hi. unfold Baro.signed_field.
  destruct (list_getitem_in_range calib (Z.of_nat i + 1)) as (hi & Hhi & ->); [lia |].
  destruct (list_getitem_in_range calib (Z.of_nat i)) as (lo & Hlo & ->); [lia |].
  exists lo, hi. rewrite Nat2Z.id in Hlo.
  replace (Z.to_nat (Z.of_nat i + 1)) with (i + 1)%nat in Hhi by lia.
  auto.
Qed.

End Indexing.

(** C10: [get_short], documented as reading a signed 16-bit integer, is
    the same function as [get_ushort]; on a list of bytes it returns, for
    every index at which both bytes exist, the unsigned little-endian value,
    and whatever it returns lies in [0, 65535]: no sign extension.  On the
    bytes 0xFF 0xFF it yields 65535 where the parser's inline code yields
    -1. *)
Theorem get_short_is_get_ushort (data : list Z) :
  Forall is_byte data ->
  (forall index, Baro.get_short data index = Baro.get_ushort data index) /\
  (forall index v, Baro.get_short data index = Ret v -> 0 <= v <= 65535) /\
  (forall i : nat, (i + 1 < length data)%nat ->
     exists lo hi, data !! i = Some lo /\ data !! (i + 1)%nat = Some hi /\
                   Baro.get_short data (Z.of_nat i) = Ret (hi * 256 + lo)) /\
  Baro.get_short [0xFF; 0xFF] 0 = Ret 65535 /\
  Baro.signed_field [0xFF; 0xFF] 0 = Ret (-1).
Proof.
  intros Hall. split; [reflexivity |]. split; [| split; [| split; reflexivity]].
  - intros index v. unfold Baro.get_short.
    destruct (list_getitem data (index + 1)) as [hi |] eqn:Hhi; [| discriminate].
    destruct (list_getitem data index) as [lo |] eqn:Hlo; [| discriminate].
    cbn [Py.bind]. intros [= <-].
    apply (list_getitem_byte _ _ _ Hall) in Hhi, Hlo. unfold is_byte in *.
    rewrite Z.shiftl_mul_pow2 by lia. lia.
  - intros i Hi.
    destruct (get_ushort_in_range data i Hi) as (lo & hi & Hlo & Hhi & Heq).
    exists lo, hi. repeat split; try assumption.
    change (Baro.get_short data (Z.of_nat i)) with (Baro.get_ushort data (Z.of_nat i)).
    rewrite Heq, Z.shiftl_mul_pow2 by lia. reflexivity.
Qed.

Lemma get_short_is_get_ushort_witness :
  Baro.get_short [0x70; 0x6B; 0x43; 0x67] 2 =
  Baro.get_ushort [0x70; 0x6B; 0x43; 0x67] 2.
Proof.
  refine (proj1 (get_short_is_get_ushort [0x70; 0x6B; 0x43; 0x67] _) 2).
  repeat constructor; unfold is_byte; lia.
Defined.

(** ** The calibration parser *)

Section Calibration.

Lemma leUint16_range (lo hi : Z) :
  is_byte lo -> is_byte hi -> 0 <= leUint16 lo hi <= 65535.
Proof.
  intros Hlo Hhi. unfold leUint16. rewrite be16_value by assumption.
  unfold is_byte in *. lia.
Qed.

Lemma leInt16_range (lo hi : Z) :
  is_byte lo -> is_byte hi -> -32768 <= leInt16 lo hi <= 32767.
Proof.
  intros Hlo Hhi. unfold leInt16.
  pose proof (leUint16_range lo hi Hlo Hhi).
  destruct (Z.leb_spec 0x8000 (leUint16 lo hi)); lia.
Qed.

Lemma coefficient_value_range (calib : list Z) (off : nat) (signed : bool) :
  Forall is_byte calib ->
  coefficient_range signed (coefficient_value calib off signed).
Proof.
  intros Hall.
  assert (Hnth : forall i, is_byte (nth i calib 0)).
  { intros i. destruct (nth_in_or_default i calib 0) as [Hin | ->].
    - exact (proj1 (List.Forall_forall _ _) Hall _ Hin).
    - unfold is_byte. lia. }
  unfold coefficient_value, coefficient_range.
  destruct signed; [apply leInt16_range | apply leUint16_range]; apply Hnth.
Qed.

Lemma get_ushort_coefficient (calib : list Z) (off : nat) :
  Forall is_byte calib -> (off + 1 < length calib)%nat ->
  Baro.get_ushort calib (Z.of_nat off) = Ret (coefficient_value calib off false).
Proof.
  intros Hall Hoff.
  destruct (get_ushort_in_range calib off Hoff) as (lo & hi & Hlo & Hhi & ->).
  unfold coefficient_value, leUint16.
  rewrite (nth_lookup_Some _ _ 0 _ Hlo), (nth_lookup_Some _ _ 0 _ Hhi).
  rewrite be16_value by exact (Forall_lookup_1 _ _ _ _ Hall Hlo).
  rewrite Z.shiftl_mul_pow2 by lia. reflexivity.
Qed.

Lemma signed_field_coefficient (calib : list Z) (off : nat) :
  (off + 1 < length calib)%nat ->
  Baro.signed_field calib (Z.of_nat off) = Ret (coefficient_value calib off true).
Proof.
  intros Hoff.
  destruct (signed_field_in_range calib off Hoff) as (lo & hi & Hlo & Hhi & ->).
  unfold coefficient_value, leInt16, leUint16.
  rewrite (nth_lookup_Some _ _ 0 _ Hlo), (nth_lookup_Some _ _ 0 _ Hhi).
  cbv zeta. f_equal.
  destruct (Z.gtb_spec (Z.lor (Z.shiftl hi 8) lo) 32767);
    destruct (Z.leb_spec 0x8000 (Z.lor (Z.shiftl hi 8) lo)); lia.
Qed.

End Calibration.

(** C5: on every 24-byte frame the calibration parser succeeds and yields
    exactly the twelve coefficients of the table, each the little-endian
    16-bit field at its even byte offset: T1 (offset 0) and P1 (offset 6)
    unsigned in [0, 65535], the ten others reinterpreted as two's complement
    in [-32768, 32767]. *)
Theorem parse_calibration_table (calib : list Z) :
  length calib = 24%nat -> Forall is_byte calib ->
  exists dig,
    Baro.parse_calibration calib = Ret dig /\
    dom dig = list_to_set (map (fun e => fst (fst e)) coefficient_table) /\
    Forall (fun '(name, off, signed) =>
              dig !! name = Some (coefficient_value calib off signed) /\
              coefficient_range signed (coefficient_value calib off signed))
           coefficient_table.
Proof.
  intros Hlen Hall. unfold Baro.parse_calibration.
  change 0 with (Z.of_nat 0) at 1. change 2 with (Z.of_nat 2).
  change 4 with (Z.of_nat 4). change 6 with (Z.of_nat 6).
  change 8 with (Z.of_nat 8). change 10 with (Z.of_nat 10).
  change 12 with (Z.of_nat 12). change 14 with (Z.of_nat 14).
  change 16 with (Z.of_nat 16). change 18 with (Z.of_nat 18).
  change 20 with (Z.of_nat 20). change 22 with (Z.of_nat 22).
  rewrite !get_ushort_coefficient, !signed_field_coefficient by (rewrite ?Hlen; auto; lia).
  cbn [Py.bind]. eexists. split; [reflexivity |].
  pose proof (fun off s => coefficient_value_range calib off s Hall) as Hrange.
  unfold coefficient_table.
  generalize dependent (coefficient_value calib). intros value Hrange.
  split.
  - rewrite !dom_insert_L, dom_empty_L. cbn [map fst list_to_set]. set_solver.
  - repeat (apply Forall_cons; split; [split; [| apply Hrange] |]);
      [.. | apply Forall_nil_2].
    all: simplify_map_eq; reflexivity.
Qed.

Lemma parse_calibration_table_witness :
  exists dig,
    Baro.parse_calibration ref_frame = Ret dig /\
    dom dig = list_to_set (map (fun e => fst (fst e)) coefficient_table) /\
    Forall (fun '(name, off, signed) =>
              dig !! name = Some (coefficient_value ref_frame off signed) /\
              coefficient_range signed (coefficient_value ref_frame off signed))
           coefficient_table.
Proof.
  apply (parse_calibration_table ref_frame); [reflexivity |].
  repeat constructor; unfold is_byte; lia.
Defined.

Example parse_ref_frame : Baro.parse_calibration ref_frame = Ret ref_dig.
Proof. vm_compute. reflexivity. Qed.

Example raw_codes_ref_data : Baro.raw_codes ref_data = Ret (415148, 519888).
Proof. reflexivity. Qed.

Example main_two_cycles :
  Baro.main steady_bus (fun _ _ => Ret tt) 2 [] =
    (Ret Baro.MeasurementStopped,
     [baro_control_write; baro_config_write; baro_calib_read;
      baro_data_read; baro_data_read]).
Proof. vm_compute. reflexivity. Qed.

(** ** The compensation engine on the data-sheet vector *)

Section ReferenceVector.

Local Open Scope Q_scope.

Lemma within_rel_decide (tol ref x : Q) :
  Qle_bool (Qabs (x - ref)) (tol * Qabs ref) = true -> within_rel tol ref x.
Proof. intros H. apply Qle_bool_iff. exact H. Qed.

Lemma not_within_rel_decide (tol ref x : Q) :
  Qle_bool (Qabs (x - ref)) (tol * Qabs ref) = false -> ~ within_rel tol ref x.
Proof.
  intros H Hin. apply Qle_bool_iff in Hin. unfold within_rel in Hin.
  rewrite H in Hin. discriminate.
Qed.

End ReferenceVector.

(** C1, as amended: on the reference calibration set and the raw codes
    [adc_t = 519888], [adc_p = 415148] the pipeline (temperature steps, then
    pressure steps consuming [t_fine]) returns the temperature
    25.0824779... degrees, within 0.1% of 25.08, and the pressure
    1006.5326677... hPa, within 0.1% of 1006.53 hPa and so within 1% of
    1000 hPa. *)
Theorem reference_vector_compensation :
  Baro.compensate ref_dig 415148 519888 =
    Ret (0x1.9151d460f8p+4, 0x1.f7442e7504a97p+9)%float /\
  exists qt qp,
    float_to_Q 0x1.9151d460f8p+4%float = Some qt /\
    float_to_Q 0x1.f7442e7504a97p+9%float = Some qp /\
    within_rel (1 # 1000) (2508 # 100) qt /\
    within_rel (1 # 1000) (100653 # 100) qp /\
    within_rel (1 # 100) 1000 qp.
Proof.
  split; [vm_compute; reflexivity |].
  do 2 eexists.
  split; [vm_compute; reflexivity |].
  split; [vm_compute; reflexivity |].
  repeat split; apply within_rel_decide; vm_compute; reflexivity.
Qed.

(** C1 as stated fails: the pressure computed for the reference vector is
    1006.53 hPa, which is not within 0.1% of 1000 hPa. *)
Lemma reference_pressure_not_within_tolerance_of_1000 :
  exists temp_c hpa qp,
    Baro.compensate ref_dig 415148 519888 = Ret (temp_c, hpa) /\
    float_to_Q hpa = Some qp /\
    ~ within_rel (1 # 1000) 1000 qp.
Proof.
  do 3 eexists.
  split; [vm_compute; reflexivity |].
  split; [vm_compute; reflexivity |].
  apply not_within_rel_decide. vm_compute. reflexivity.
Qed.

(** ** NaN and infinities in binary64 arithmetic *)

Section Special.

Local Open Scope float_scope.

Lemma special_div_l (x y : float) : special x = true -> special (x / y) = true.
Proof.
  unfold special. rewrite div_spec.
  destruct (Prim2SF x); try discriminate; destruct (Prim2SF y); reflexivity.
Qed.

Lemma special_mul_l (x y : float) : special x = true -> special (x * y) = true.
Proof.
  unfold special. rewrite mul_spec.
  destruct (Prim2SF x); try discriminate; destruct (Prim2SF y); reflexivity.
Qed.

Lemma special_mul_r (x y : float) : special y = true -> special (x * y) = true.
Proof.
  unfold special. rewrite mul_spec.
  destruct (Prim2SF y); try discriminate; destruct (Prim2SF x); reflexivity.
Qed.

Lemma special_add_l (x y : float) : special x = true -> special (x + y) = true.
Proof.
  unfold special. rewrite add_spec.
  destruct (Prim2SF x) as [| sx | |]; try discriminate;
    destruct (Prim2SF y) as [| sy | |]; try reflexivity.
  destruct sx, sy; reflexivity.
Qed.

Lemma special_add_r (x y : float) : special y = true -> special (x + y) = true.
Proof.
  unfold special. rewrite add_spec.
  destruct (Prim2SF y) as [| sy | |]; try discriminate;
    destruct (Prim2SF x) as [| sx | |]; try reflexivity.
  destruct sx, sy; reflexivity.
Qed.

Lemma special_sub_l (x y : float) : special x = true -> special (x - y) = true.
Proof.
  unfold special. rewrite sub_spec.
  destruct (Prim2SF x) as [| sx | |]; try discriminate;
    destruct (Prim2SF y) as [| sy | |]; try reflexivity.
  destruct sx, sy; reflexivity.
Qed.

Lemma eqb_zero_not_special (x : float) : (x =? 0) = true -> special x = false.
Proof.
  unfold special. rewrite FloatAxioms.eqb_spec. intros H.
  destruct (Prim2SF x) as [| [|] | |]; try reflexivity; vm_compute in H; discriminate.
Qed.

Lemma SFcompare_finite_refl (s : bool) (m : positive) (e : Z) :
  SFcompare (S754_finite s m e) (S754_finite s m e) = Some Eq.
Proof.
  unfold SFcompare. rewrite Z.compare_refl.
  change (Pos.compare_cont Eq m m) with (Pos.compare m m).
  rewrite Pos.compare_refl. destruct s; reflexivity.
Qed.

(** [special] is the negation of the primitive test [is_finite]. *)
Lemma is_finite_not_special (x : float) : is_finite x = negb (special x).
Proof.
  unfold is_finite, is_nan, is_infinity, special.
  rewrite !FloatAxioms.eqb_spec, abs_spec.
  destruct (Prim2SF x) as [s | [|] | | s m e]; try reflexivity.
  unfold SFeqb at 1. rewrite SFcompare_finite_refl. reflexivity.
Qed.

Lemma fdiv_nonzero (x c : float) : (c =? 0) = false -> fdiv x c = Ret (x / c).
Proof. unfold fdiv. intros ->. reflexivity. Qed.

End Special.

(** ** Division by 5120.0 never overflows *)

Section Digits.

Lemma digits2_pos_bounds (p : positive) :
  2 ^ (Zpos (digits2_pos p) - 1) <= Zpos p < 2 ^ Zpos (digits2_pos p).
Proof.
  induction p as [p IH | p IH |]; cbn [digits2_pos].
  - rewrite Pos2Z.inj_succ.
    replace (Z.succ (Zpos (digits2_pos p)) - 1) with (Z.succ (Zpos (digits2_pos p) - 1)) by lia.
    rewrite !Z.pow_succ_r by lia. lia.
  - rewrite Pos2Z.inj_succ.
    replace (Z.succ (Zpos (digits2_pos p)) - 1) with (Z.succ (Zpos (digits2_pos p) - 1)) by lia.
    rewrite !Z.pow_succ_r by lia. lia.
  - cbn. lia.
Qed.

Lemma Zdigits2_le (m k : Z) : 0 <= k -> 0 <= m < 2 ^ k -> Zdigits2 m <= k.
Proof.
  intros Hk [Hm Hlt]. destruct m as [| p | p]; cbn [Zdigits2]; [lia | | lia].
  pose proof (digits2_pos_bounds p) as [Hlo _].
  destruct (Z_lt_le_dec k (Zpos (digits2_pos p))) as [Hgt | ]; [exfalso | assumption].
  assert (2 ^ k <= 2 ^ (Zpos (digits2_pos p) - 1)) by (apply Z.pow_le_mono_r; lia).
  lia.
Qed.

Lemma Zdigits2_nonneg (m : Z) : 0 <= Zdigits2 m.
Proof. destruct m; cbn; lia. Qed.

End Digits.

Section Shifts.

Lemma shr_1_below (b : Z) (mrs : shr_record) :
  nonneg_below b mrs -> nonneg_below b (shr_1 mrs).
Proof.
  unfold nonneg_below. destruct mrs as [m r s]. cbn [shr_m shr_1].
  destruct m as [| [p | p |] | p]; cbn [shr_m]; lia.
Qed.

Lemma iter_pos_below (b : Z) (p : positive) :
  forall mrs, nonneg_below b mrs -> nonneg_below b (SpecFloat.iter_pos shr_1 p mrs).
Proof.
  induction p as [p IH | p IH |]; intros mrs H; cbn [SpecFloat.iter_pos].
  - apply IH, IH, shr_1_below, H.
  - apply IH, IH, H.
  - apply shr_1_below, H.
Qed.

Lemma shr_record_of_loc_m (m : Z) (l : location) : shr_m (shr_record_of_loc m l) = m.
Proof. destruct l as [| []]; reflexivity. Qed.

Lemma shr_fexp_below (m e : Z) (l : location) :
  0 <= m ->
  let '(mrs, e1) := shr_fexp prec emax m e l in
  nonneg_below m mrs /\ (e1 = e \/ e1 = fexp prec emax (Zdigits2 m + e)).
Proof.
  intros Hm. unfold shr_fexp, shr.
  assert (H0 : nonneg_below m (shr_record_of_loc m l))
    by (unfold nonneg_below; rewrite shr_record_of_loc_m; lia).
  destruct (fexp prec emax (Zdigits2 m + e) - e) as [| p | p] eqn:Hn.
  - auto.
  - split; [apply iter_pos_below, H0 | right; lia].
  - auto.
Qed.

Lemma round_nearest_even_bounds (m : Z) (l : location) :
  m <= round_nearest_even m l <= m + 1.
Proof.
  unfold round_nearest_even. destruct l as [| []]; try lia.
  destruct (Z.even m); lia.
Qed.

Lemma binary_round_aux_not_special (s : bool) (m e : Z) (l : location) :
  0 <= m -> Zdigits2 m <= 54 -> e <= 960 ->
  match binary_round_aux prec emax s m e l with
  | S754_nan | S754_infinity _ => False
  | _ => True
  end.
Proof.
  intros Hm Hd He. unfold binary_round_aux.
  pose proof (shr_fexp_below m e l Hm) as H1.
  destruct (shr_fexp prec emax m e l) as [mrs1 e1].
  destruct H1 as [[Hlo1 Hhi1] He1].
  set (m1 := round_nearest_even (shr_m mrs1) (loc_of_shr_record mrs1)).
  pose proof (round_nearest_even_bounds (shr_m mrs1) (loc_of_shr_record mrs1)) as Hr.
  fold m1 in Hr.
  assert (Hm1 : 0 <= m1) by lia.
  pose proof (shr_fexp_below m1 e1 loc_Exact Hm1) as H2.
  destruct (shr_fexp prec emax m1 e1 loc_Exact) as [mrs2 e2].
  destruct H2 as [[Hlo2 Hhi2] He2].
  pose proof (Zdigits2_nonneg m) as Hdm.
  assert (Hm54 : m < 2 ^ 54).
  { destruct m as [| p | p]; [reflexivity | | lia].
    pose proof (digits2_pos_bounds p) as [_ Hlt]. cbn [Zdigits2] in Hd.
    assert (2 ^ Zpos (digits2_pos p) <= 2 ^ 54) by (apply Z.pow_le_mono_r; lia).
    lia. }
  assert (Hd1 : Zdigits2 m1 <= 55).
  { apply Zdigits2_le; [lia |]. change (2 ^ 55) with (2 * 2 ^ 54). lia. }
  pose proof (Zdigits2_nonneg m1) as Hdm1.
  unfold fexp, emin, prec, emax in *.
  destruct (shr_m mrs2) as [| p | p]; [exact I | | lia].
  destruct (Z.leb_spec e2 (1024 - 53)); [exact I | lia].
Qed.

End Shifts.

Section Division.

Local Open Scope float_scope.

Lemma Prim2SF_5120 : Prim2SF 5120.0 = S754_finite false m5120 (-40).
Proof. vm_compute. reflexivity. Qed.

Lemma div_core_5120 (m : positive) (e : Z) :
  bounded prec emax m e = true ->
  let '(q, e', l) := SFdiv_core_binary prec emax (Zpos m) e (Zpos m5120) (-40) in
  (0 <= q)%Z /\ (Zdigits2 q <= 54)%Z /\ (e' <= 960)%Z.
Proof.
  unfold bounded, canonical_mantissa. intros Hb.
  apply andb_true_iff in Hb. destruct Hb as [Hc He].
  apply Z.eqb_eq in Hc. apply Z.leb_le in He.
  unfold SFdiv_core_binary.
  change (Zdigits2 (Zpos m5120)) with 53%Z.
  cbn [Zdigits2].
  set (d1 := Zpos (digits2_pos m)) in *.
  pose proof (digits2_pos_bounds m) as [_ Hm]. fold d1 in Hm.
  assert (Hd1 : (0 < d1)%Z) by (unfold d1; lia).
  set (e' := Z.min (fexp prec emax (d1 + e - (53 + -40))) (e - -40)).
  set (s := (e - -40 - e')%Z).
  assert (Hs : (0 <= s <= 106 - d1)%Z /\ (e' <= 960)%Z).
  { unfold s, e', fexp, emin, prec, emax in *. lia. }
  destruct Hs as [Hs He'].
  set (m' := match s with Z0 => Zpos m | Zpos _ => Z.shiftl (Zpos m) s | Zneg _ => 0%Z end).
  assert (Hm' : (0 <= m' < 2 ^ 106)%Z).
  { assert (Heq : m' = (Zpos m * 2 ^ s)%Z).
    { unfold m'. destruct s as [| p | p] eqn:Es; [lia | | lia].
      rewrite Z.shiftl_mul_pow2 by lia. reflexivity. }
    rewrite Heq.
    assert (0 < 2 ^ s)%Z by (apply Z.pow_pos_nonneg; lia).
    assert (2 ^ d1 * 2 ^ s <= 2 ^ 106)%Z.
    { rewrite <- Z.pow_add_r by lia. apply Z.pow_le_mono_r; lia. }
    nia. }
  pose proof (Z_div_mod m' (Zpos m5120) eq_refl) as Hdiv.
  destruct (Z.div_eucl m' (Zpos m5120)) as [q r].
  destruct Hdiv as [Hqr Hr].
  assert (Hq : (0 <= q < 2 ^ 54)%Z).
  { change (2 ^ 106)%Z with (2 ^ 52 * 2 ^ 54)%Z in Hm'.
    unfold m5120 in *. change (2 ^ 52)%Z with 4503599627370496%Z in Hm'.
    change (2 ^ 54)%Z with 18014398509481984%Z in *. lia. }
  split; [lia |]. split; [| exact He'].
  apply Zdigits2_le; lia.
Qed.

Lemma div_5120_not_special (x : float) :
  special x = false -> special (x / 5120.0) = false.
Proof.
  unfold special. rewrite div_spec, Prim2SF_5120.
  pose proof (Prim2SF_valid x) as Hv.
  destruct (Prim2SF x) as [s | s | | s m e]; try discriminate; intros _.
  - reflexivity.
  - unfold SF64div, SFdiv. cbn [valid_binary] in Hv.
    pose proof (div_core_5120 m e Hv) as Hcore.
    destruct (SFdiv_core_binary prec emax (Zpos m) e (Zpos m5120) (-40))
      as [[q e'] l].
    destruct Hcore as (Hq & Hd & He).
    pose proof (binary_round_aux_not_special (xorb s false) q e' l Hq Hd He) as H.
    destruct (binary_round_aux prec emax (xorb s false) q e' l);
      [reflexivity | contradiction | contradiction | reflexivity].
Qed.

End Division.

(** ** The degenerate pressure branch *)

Section Degenerate.

Local Open Scope float_scope.

Ltac step_setup :=
  repeat first
    [ rewrite fdiv_nonzero by reflexivity; cbn [Py.bind]
    | match goal with
      | |- context [dict_getitem ?d ?k] =>
          destruct (dict_getitem d k); cbn [Py.bind]; [| discriminate]
      end ].

(** The final [var1] of the pressure set-up as an expression of [t_fine]. *)
Lemma pressure_setup_var1 (dig : gmap string Z) (t_fine var1 var2 : float) :
  Baro.pressure_setup dig t_fine = Ret (var1, var2) ->
  exists P1 P2 P3 : Z,
    let v := t_fine / 2.0 - 64000.0 in
    var1 = (1.0 + (float_of_Z P3 * v * v / 524288.0 + float_of_Z P2 * v)
                  / 524288.0 / 32768.0) * float_of_Z P1.
Proof.
  unfold Baro.pressure_setup. step_setup.
  intros [= <- <-]. eauto.
Qed.

Lemma degenerate_t_fine_finite (dig : gmap string Z) (t_fine var1 var2 : float) :
  Baro.pressure_setup dig t_fine = Ret (var1, var2) ->
  (var1 =? 0) = true -> is_finite t_fine = true.
Proof.
  intros Hsetup Hzero.
  rewrite is_finite_not_special.
  destruct (special t_fine) eqn:Hsp; [exfalso | reflexivity].
  destruct (pressure_setup_var1 _ _ _ _ Hsetup) as (P1 & P2 & P3 & Hv).
  cbv zeta in Hv.
  apply eqb_zero_not_special in Hzero.
  assert (Hbad : special var1 = true); [| congruence].
  subst var1.
  apply special_mul_l, special_add_r, special_div_l, special_div_l,
    special_add_l, special_div_l, special_mul_r, special_sub_l, special_div_l.
  exact Hsp.
Qed.

End Degenerate.

(** C2: whenever the pressure set-up ends with [var1] equal to zero, the
    guarded branch is taken: no division by [var1] (nor any other step of the
    else-branch) is evaluated whatever the calibration set, the pipeline
    returns normally, without [ZeroDivisionError], the pressure it returns
    is exactly [0.0], and the temperature returned with it is a finite
    number too: the reading holds no NaN and no infinity. *)
Theorem degenerate_pressure_is_zero
    (dig : gmap string Z) (adc_p adc_t : Z) (t_fine var1 var2 : float) :
  Baro.temperature_fine dig adc_t = Ret t_fine ->
  Baro.pressure_setup dig t_fine = Ret (var1, var2) ->
  (var1 =? 0)%float = true ->
  (forall dig', Baro.pressure_pascal dig' adc_p var1 var2 = Ret (float_of_Z 0)) /\
  Baro.compensate dig adc_p adc_t = Ret ((t_fine / 5120.0)%float, 0%float) /\
  is_finite (t_fine / 5120.0)%float = true /\
  is_finite 0%float = true.
Proof.
  intros Htemp Hsetup Hzero.
  assert (Hbranch : forall dig',
             Baro.pressure_pascal dig' adc_p var1 var2 = Ret (float_of_Z 0)).
  { intros dig'. unfold Baro.pressure_pascal. rewrite Hzero. reflexivity. }
  split; [exact Hbranch |]. split; [| split; [| reflexivity]].
  - unfold Baro.compensate. rewrite Htemp. cbn [Py.bind].
    rewrite fdiv_nonzero by reflexivity. cbn [Py.bind].
    rewrite Hsetup. cbn [Py.bind]. rewrite Hbranch. cbn [Py.bind].
    reflexivity.
  - pose proof (degenerate_t_fine_finite _ _ _ _ Hsetup Hzero) as Hfin.
    rewrite is_finite_not_special in *.
    apply negb_true_iff in Hfin. apply negb_true_iff.
    exact (div_5120_not_special _ Hfin).
Qed.

Lemma degenerate_pressure_is_zero_witness :
  exists temp_c,
    Baro.compensate zero_P1_dig 415148 519888 = Ret (temp_c, 0%float).
Proof.
  eassert (Htemp : Baro.temperature_fine zero_P1_dig 519888 = Ret _)
    by (vm_compute; reflexivity).
  eassert (Hsetup : Baro.pressure_setup zero_P1_dig _ = Ret (_, _))
    by (vm_compute; reflexivity).
  eexists.
  refine (proj1 (proj2
    (degenerate_pressure_is_zero zero_P1_dig 415148 519888 _ _ _ Htemp Hsetup _))).
  vm_compute. reflexivity.
Defined.

(** ** Bus traffic of the drivers *)

Section Traffic.

Variable bus : Bus.SMBus.

Lemma transact_failed (r : Bus.request) (h : list Bus.request) :
  bus h r = None -> Bus.transact bus r h = (Raise OSError, h ++ [r]).
Proof. unfold Bus.transact. intros ->. reflexivity. Qed.

Lemma transact_answered (r : Bus.request) (h : list Bus.request) (d : list Z) :
  bus h r = Some d -> Bus.transact bus r h = (Ret d, h ++ [r]).
Proof. unfold Bus.transact. intros ->. reflexivity. Qed.

Lemma transact_history (r : Bus.request) (h : list Bus.request) :
  snd (Bus.transact bus r h) = h ++ [r].
Proof. unfold Bus.transact. destruct (bus h r); reflexivity. Qed.

Lemma hall_read_data_history (h : list Bus.request) :
  snd (Hall3dh.read_data bus h) = h ++ [hall_measurement_read].
Proof.
  unfold Hall3dh.read_data, Bus.read_i2c_block_data.
  change (Bus.ReadBlockData _ _ 7) with hall_measurement_read.
  pose proof (transact_history hall_measurement_read h) as Hh.
  destruct (Bus.transact bus hall_measurement_read h) as [[data | e] h'];
    cbn [snd] in Hh; subst h'.
  - unfold Bus.bind, Bus.lift, Bus.ret.
    destruct (Hall3dh.decode_axes data); reflexivity.
  - destruct e; reflexivity.
Qed.

Lemma hall_start_measurement_history (h : list Bus.request) :
  snd (Hall3dh.start_measurement bus h) = h ++ [hall_start_write].
Proof.
  unfold Hall3dh.start_measurement, Bus.try_except, Bus.write_byte, Bus.bind.
  change (Bus.WriteByte _ _) with hall_start_write.
  pose proof (transact_history hall_start_write h) as Hh.
  destruct (Bus.transact bus hall_start_write h) as [[data | e] h'];
    cbn [snd] in Hh; subst h'; [reflexivity |].
  destruct e; reflexivity.
Qed.

End Traffic.

(** C8: whatever the bus and the history, the magnetometer read issues
    exactly one request, a block read of 7 bytes (one status byte and two
    bytes for each of the three channels of the axis mask) whose command byte
    is the read opcode 0x40 or-ed with the axis mask 0x0E, the mask also
    carried by the start command; a 7-byte answer is decoded as the three
    big-endian signed 16-bit values at offsets 1-2, 3-4 and 5-6. *)
Theorem hall_read_data_frame (bus : Bus.SMBus) (h : list Bus.request) :
  Z.lor Hall3dh.CMD_RM Hall3dh.AXIS_MASK = 0x4E /\
  Z.land 0x4E 0xF0 = Hall3dh.CMD_RM /\
  Z.land 0x4E 0x0F = Hall3dh.AXIS_MASK /\
  Z.land (Z.lor Hall3dh.CMD_SM Hall3dh.AXIS_MASK) 0x0F = Hall3dh.AXIS_MASK /\
  7 = 1 + 2 * channel_count Hall3dh.AXIS_MASK /\
  snd (Hall3dh.start_measurement bus h) =
    h ++ [Bus.WriteByte Hall3dh.DEVICE_ADDR
            (Z.lor Hall3dh.CMD_SM Hall3dh.AXIS_MASK)] /\
  snd (Hall3dh.read_data bus h) =
    h ++ [Bus.ReadBlockData Hall3dh.DEVICE_ADDR
            (Z.lor Hall3dh.CMD_RM Hall3dh.AXIS_MASK) 7] /\
  (forall st xh xl yh yl zh zl,
      bus h (Bus.ReadBlockData Hall3dh.DEVICE_ADDR 0x4E 7)
        = Some [st; xh; xl; yh; yl; zh; zl] ->
      fst (Hall3dh.read_data bus h) =
        Ret (Some (Hall3dh.beInt16 xh xl, Hall3dh.beInt16 yh yl,
                   Hall3dh.beInt16 zh zl))).
Proof.
  repeat (split; [reflexivity |]).
  split; [apply hall_start_measurement_history |].
  split; [apply hall_read_data_history |].
  intros st xh xl yh yl zh zl Hans.
  unfold Hall3dh.read_data, Bus.read_i2c_block_data.
  change (Z.lor Hall3dh.CMD_RM Hall3dh.AXIS_MASK) with 0x4E.
  rewrite (transact_answered _ _ _ _ Hans). reflexivity.
Qed.

Lemma hall_read_data_frame_witness :
  fst (Hall3dh.read_data frame_bus []) = Ret (Some (-200, 300, -1)).
Proof.
  refine (proj2 (proj2 (proj2 (proj2 (proj2 (proj2 (proj2
    (hall_read_data_frame frame_bus [])))))))
    0x03 0xFF 0x38 0x01 0x2C 0xFF 0xFF _).
  reflexivity.
Defined.

(** ** The magnitude of a reading *)

(** C9: whatever the C library's [pow] computes, the magnitude of a
    reading does not depend on the order of its three components, because
    the sum of squares is formed in exact integer arithmetic before the
    conversion to a float. *)
Theorem magnitude_permutation_invariant
    (float_pow : float -> float -> float) (x y z : Z) :
  Hall3dh.magnitude float_pow x y z = Hall3dh.magnitude float_pow x z y /\
  Hall3dh.magnitude float_pow x y z = Hall3dh.magnitude float_pow y x z /\
  Hall3dh.magnitude float_pow x y z = Hall3dh.magnitude float_pow y z x /\
  Hall3dh.magnitude float_pow x y z = Hall3dh.magnitude float_pow z x y /\
  Hall3dh.magnitude float_pow x y z = Hall3dh.magnitude float_pow z y x.
Proof.
  unfold Hall3dh.magnitude.
  repeat split; do 2 f_equal; lia.
Qed.

(** ** Transports on which every block read fails *)

Section FailingReads.

Variable bus : Bus.SMBus.
Hypothesis reads_fail : Bus.reads_fail bus.

Lemma hall_read_data_unavailable (h : list Bus.request) :
  Hall3dh.read_data bus h = (Ret None, h ++ [hall_measurement_read]).
Proof.
  unfold Hall3dh.read_data, Bus.read_i2c_block_data.
  rewrite transact_failed by apply reads_fail. reflexivity.
Qed.

Lemma baro_read_data_raises (dig : gmap string Z) (h : list Bus.request) :
  Baro.read_data bus dig h = (Raise OSError, h ++ [baro_data_read]).
Proof.
  unfold Baro.read_data, Bus.bind, Bus.read_i2c_block_data.
  rewrite transact_failed by apply reads_fail. reflexivity.
Qed.

Lemma baro_poll_stops (report : float -> float -> outcome unit) (n : nat)
    (dig : gmap string Z) (h : list Bus.request) :
  Baro.poll bus report (S n) dig h = (Raise OSError, h ++ [baro_data_read]).
Proof.
  cbn [Baro.poll]. unfold Bus.bind at 1.
  rewrite baro_read_data_raises. reflexivity.
Qed.

Lemma hall_cycle_skips (float_pow : float -> float -> float)
    (report : Z -> Z -> Z -> float -> outcome unit) (h : list Bus.request) :
  byte_writes_succeed bus ->
  Hall3dh.cycle bus float_pow report h =
    (Ret tt, h ++ [hall_start_write; hall_measurement_read]).
Proof.
  intros Hw. destruct (Hw h Hall3dh.DEVICE_ADDR 0x3E) as [d Hd].
  unfold Hall3dh.cycle, Bus.bind at 1.
  unfold Hall3dh.start_measurement, Bus.try_except, Bus.write_byte, Bus.bind at 1.
  change (Z.lor Hall3dh.CMD_SM Hall3dh.AXIS_MASK) with 0x3E.
  rewrite (transact_answered _ _ _ _ Hd). cbn [Bus.ret].
  unfold Bus.bind. rewrite hall_read_data_unavailable.
  unfold Bus.ret. rewrite <- app_assoc. reflexivity.
Qed.

Lemma hall_poll_keeps_cycling (float_pow : float -> float -> float)
    (report : Z -> Z -> Z -> float -> outcome unit) (n : nat) :
  byte_writes_succeed bus ->
  forall h, Hall3dh.poll bus float_pow report n h =
              (Raise KeyboardInterrupt, h ++ hall_cycles n).
Proof.
  intros Hw. induction n as [| n IH]; intros h.
  - cbn. rewrite app_nil_r. reflexivity.
  - cbn [Hall3dh.poll hall_cycles]. unfold Bus.bind.
    rewrite hall_cycle_skips by assumption. rewrite IH.
    rewrite <- app_assoc. reflexivity.
Qed.

End FailingReads.

(** ** The initialization phase of the barometer main program *)

Section Initialization.

Variable bus : Bus.SMBus.
Variable report : float -> float -> outcome unit.

Lemma main_stops_when_initialization_fails (n : nat) (h : list Bus.request) :
  initialization_fails bus h ->
  exists l,
    Baro.main bus report n h = (Ret Baro.SensorNotFound, h ++ l) /\
    (l = [baro_control_write] \/
     l = [baro_control_write; baro_config_write] \/
     l = [baro_control_write; baro_config_write; baro_calib_read]).
Proof.
  unfold initialization_fails, Baro.main, Baro.setup_sensor,
    Baro.read_calibration_data, Bus.write_byte_data,
    Bus.read_i2c_block_data, Bus.bind.
  change (Bus.WriteByteData _ Baro.REG_CONTROL _) with baro_control_write.
  change (Bus.WriteByteData _ Baro.REG_CONFIG _) with baro_config_write.
  change (Bus.ReadBlockData _ Baro.REG_CALIB _) with baro_calib_read.
  intros Hfail.
  destruct (bus h baro_control_write) as [d1 |] eqn:H1.
  2:{ rewrite (transact_failed _ _ _ H1). eauto. }
  rewrite (transact_answered _ _ _ _ H1). cbn [Bus.ret].
  destruct (bus (h ++ [baro_control_write]) baro_config_write) as [d2 |] eqn:H2.
  2:{ rewrite (transact_failed _ _ _ H2), <- app_assoc. eauto. }
  rewrite (transact_answered _ _ _ _ H2). cbn [Bus.ret].
  rewrite <- app_assoc. cbn [app].
  destruct Hfail as [Hf | [Hf | Hf]]; try discriminate.
  rewrite (transact_failed _ _ _ Hf), <- app_assoc. cbn [app]. eauto 6.
Qed.

End Initialization.

(** ** Error results and reads before initialization *)

(** C3, as amended: on every transport on which every block read fails,
    the magnetometer read returns [None] without raising, any number of
    times in a row, and the polling loop keeps cycling while the start
    command is acknowledged; the barometer read returns no error value: it
    raises [OSError] to its caller after the one failed transfer, whatever
    the calibration dictionary, and a barometer polling loop ends there; the
    barometer main program already ends in its [except OSError] handler
    during initialization, before any data read. *)
Theorem failing_reads_outcomes (bus : Bus.SMBus) (h : list Bus.request) :
  Bus.reads_fail bus ->
  Hall3dh.read_data bus h = (Ret None, h ++ [hall_measurement_read]) /\
  (do _ <- Hall3dh.read_data bus ; Hall3dh.read_data bus)%io h =
    (Ret None, h ++ [hall_measurement_read; hall_measurement_read]) /\
  (byte_writes_succeed bus ->
   forall float_pow report n,
     Hall3dh.main bus float_pow report n h = (Ret tt, h ++ hall_cycles n)) /\
  (forall dig,
     Baro.read_data bus dig h = (Raise OSError, h ++ [baro_data_read])) /\
  (forall report n dig,
     Baro.poll bus report (S n) dig h = (Raise OSError, h ++ [baro_data_read])) /\
  (forall report n,
     exists l, Baro.main bus report n h = (Ret Baro.SensorNotFound, h ++ l) /\
               ~ In baro_data_read l).
Proof.
  intros Hfail.
  split; [apply hall_read_data_unavailable; assumption |].
  split.
  { unfold Bus.bind. rewrite !hall_read_data_unavailable by assumption.
    rewrite <- app_assoc. reflexivity. }
  split.
  { intros Hw float_pow report n. unfold Hall3dh.main.
    rewrite hall_poll_keeps_cycling by assumption. reflexivity. }
  split; [intros dig; apply baro_read_data_raises; assumption |].
  split; [intros report n dig; apply baro_poll_stops; assumption |].
  intros report n.
  destruct (main_stops_when_initialization_fails bus report n h)
    as (l & Hmain & Hl).
  { right. right. apply Hfail. }
  exists l. split; [exact Hmain |].
  destruct Hl as [-> | [-> | ->]]; cbn; intuition discriminate.
Qed.

Lemma failing_reads_outcomes_witness :
  Hall3dh.read_data write_only_bus [] = (Ret None, [hall_measurement_read]) /\
  Baro.read_data write_only_bus ref_dig [] = (Raise OSError, [baro_data_read]).
Proof.
  assert (Hfail : Bus.reads_fail write_only_bus) by (intros h a r l; reflexivity).
  split.
  - exact (proj1 (failing_reads_outcomes write_only_bus [] Hfail)).
  - exact (proj1 (proj2 (proj2 (proj2
             (failing_reads_outcomes write_only_bus [] Hfail)))) ref_dig).
Defined.

(** C3 as stated fails for the barometer: on a transport where every
    transfer fails, [read_data] does not return at all; it raises. *)
Lemma baro_read_data_raises_on_dead_bus :
  Bus.reads_fail dead_bus /\
  Baro.read_data dead_bus ref_dig [] = (Raise OSError, [baro_data_read]) /\
  ~ exists reading, fst (Baro.read_data dead_bus ref_dig []) = Ret reading.
Proof.
  split; [intros h a r l; reflexivity |].
  split; [reflexivity |].
  intros [reading H]. discriminate H.
Qed.

(** C4, as amended: in the barometer main program, when a configuration
    write or the calibration read fails on the bus, the program ends in its
    [except OSError] handler whatever the number of cycles asked for and
    whatever the reporting code: the only transfers made are those of the
    initialization up to the failed one, so [read_data] is never called, no
    data block is read and no compensation is computed.  ([read_data] itself
    has no initialization check and there is no NotInitialized error.) *)
Theorem main_never_reads_uninitialized
    (bus : Bus.SMBus) (report : float -> float -> outcome unit)
    (n : nat) (h : list Bus.request) :
  initialization_fails bus h ->
  exists l,
    Baro.main bus report n h = (Ret Baro.SensorNotFound, h ++ l) /\
    (l = [baro_control_write] \/
     l = [baro_control_write; baro_config_write] \/
     l = [baro_control_write; baro_config_write; baro_calib_read]) /\
    ~ In baro_data_read l.
Proof.
  intros Hfail.
  destruct (main_stops_when_initialization_fails bus report n h Hfail)
    as (l & Hmain & Hl).
  exists l. split; [exact Hmain |]. split; [exact Hl |].
  destruct Hl as [-> | [-> | ->]]; cbn; intuition discriminate.
Qed.

Lemma main_never_reads_uninitialized_witness :
  exists l,
    Baro.main unconfigurable_bus (fun _ _ => Ret tt) 3 [] =
      (Ret Baro.SensorNotFound, l) /\
    ~ In baro_data_read l.
Proof.
  destruct (main_never_reads_uninitialized unconfigurable_bus
              (fun _ _ => Ret tt) 3 []) as (l & Hmain & _ & Hno).
  - left. reflexivity.
  - exists l. split; [exact Hmain | exact Hno].
Defined.

(** C4 as stated fails: after [setup_sensor] has failed, and without any
    calibration read, [read_data] still computes and returns a reading from
    the dictionary it is handed; handed an empty dictionary it raises
    [KeyError] after the transfer.  Neither is a NotInitialized result. *)
Lemma read_data_without_initialization :
  exists h temp_c hpa,
    Baro.setup_sensor unconfigurable_bus [] = (Raise OSError, h) /\
    Baro.read_data unconfigurable_bus ref_dig h =
      (Ret (temp_c, hpa), h ++ [baro_data_read]) /\
    Baro.read_data unconfigurable_bus ∅ h =
      (Raise (KeyError "T1"), h ++ [baro_data_read]).
Proof.
  do 3 eexists.
  split; [vm_compute; reflexivity |].
  split; vm_compute; reflexivity.
Qed.

(** * Further properties of the drivers *)

(** ** Indexing behaviour of the 16-bit helpers *)

Section HelperDomain.

Lemma list_getitem_valid (data : list Z) (i : Z) :
  - Z.of_nat (length data) <= i < Z.of_nat (length data) ->
  exists v,
    list_getitem data i = Ret v /\
    data !! Z.to_nat (if i <? 0 then i + Z.of_nat (length data) else i) = Some v.
Proof.
  intros Hi. unfold list_getitem.
  set (j := if i <? 0 then i + Z.of_nat (length data) else i).
  assert (Hj : 0 <= j < Z.of_nat (length data))
    by (unfold j; destruct (Z.ltb_spec i 0); lia).
  destruct (Z.leb_spec 0 j); [| lia].
  destruct (Z.ltb_spec j (Z.of_nat (length data))); [| lia].
  destruct (lookup_lt_is_Some_2 data (Z.to_nat j)) as [v Hv]; [lia |].
  exists v. rewrite Hv. auto.
Qed.

Lemma list_getitem_invalid (data : list Z) (i : Z) :
  ~ (- Z.of_nat (length data) <= i < Z.of_nat (length data)) ->
  list_getitem data i = Raise IndexError.
Proof.
  intros Hi. unfold list_getitem.
  set (n := Z.of_nat (length data)) in *.
  destruct (Z.ltb_spec i 0) as [Hneg | Hpos].
  - destruct (Z.leb_spec 0 (i + n)); [| reflexivity].
    destruct (Z.ltb_spec (i + n) n); [lia | reflexivity].
  - destruct (Z.leb_spec 0 i); [| lia].
    destruct (Z.ltb_spec i n); [lia | reflexivity].
Qed.

Lemma list_getitem_raises (data : list Z) (i : Z) (e : exn) :
  list_getitem data i = Raise e -> e = IndexError.
Proof.
  unfold list_getitem. destruct (_ && _); [| congruence].
  destruct (data !! _); congruence.
Qed.

Lemma list_getitem_app_l (l l' : list Z) (i : Z) :
  0 <= i < Z.of_nat (length l) ->
  list_getitem (l ++ l') i = list_getitem l i.
Proof.
  intros Hi.
  destruct (list_getitem_valid l i) as (v & -> & Hv); [lia |].
  destruct (list_getitem_valid (l ++ l') i) as (w & -> & Hw);
    [rewrite length_app; lia |].
  destruct (Z.ltb_spec i 0); [lia |].
  rewrite lookup_app_l in Hw by lia. congruence.
Qed.

End HelperDomain.

(** X1: [get_ushort] (and [get_short], the same function) returns exactly
    for the indices [-len <= index < len - 1] and raises [IndexError] for
    every other index; at index [-1] it does not read two adjacent bytes but
    combines the first element, as high byte, with the last. *)
Theorem get_ushort_index_domain (data : list Z) (index : Z) :
  (- Z.of_nat (length data) <= index < Z.of_nat (length data) - 1 ->
   exists v, Baro.get_ushort data index = Ret v) /\
  (~ (- Z.of_nat (length data) <= index < Z.of_nat (length data) - 1) ->
   Baro.get_ushort data index = Raise IndexError) /\
  (forall hi mid lo,
     data = hi :: mid ++ [lo] ->
     Baro.get_ushort data (-1) = Ret (Z.shiftl hi 8 + lo)).
Proof.
  unfold Baro.get_ushort. split; [| split].
  - intros Hi.
    destruct (list_getitem_valid data (index + 1)) as (hi & -> & _); [lia |].
    destruct (list_getitem_valid data index) as (lo & -> & _); [lia |].
    cbn [Py.bind]. eauto.
  - intros Hi.
    destruct (Z_le_dec (- Z.of_nat (length data)) (index + 1)) as [Hlo | Hlo];
      [| rewrite list_getitem_invalid by lia; reflexivity].
    destruct (Z_lt_dec (index + 1) (Z.of_nat (length data))) as [Hhi | Hhi];
      [| rewrite list_getitem_invalid by lia; reflexivity].
    destruct (list_getitem_valid data (index + 1)) as (hi & -> & _); [lia |].
    cbn [Py.bind]. rewrite list_getitem_invalid by lia. reflexivity.
  - intros hi mid lo ->. change (-1 + 1) with 0.
    destruct (list_getitem_valid (hi :: mid ++ [lo]) 0) as (a & -> & Ha);
      [cbn [length]; lia |].
    destruct (list_getitem_valid (hi :: mid ++ [lo]) (-1)) as (b & -> & Hb);
      [cbn [length]; rewrite length_app; cbn [length]; lia |].
    cbn [Py.bind]. cbn in Ha. injection Ha as <-.
    change (-1 <? 0) with true in Hb. cbv iota in Hb.
    replace (Z.to_nat (-1 + Z.of_nat (length (hi :: mid ++ [lo]))))
      with (S (length mid)) in Hb
      by (cbn [length]; rewrite length_app; cbn [length]; lia).
    change ((hi :: mid ++ [lo]) !! S (length mid))
      with ((mid ++ [lo]) !! length mid) in Hb.
    rewrite list_lookup_middle in Hb by reflexivity.
    injection Hb as <-. reflexivity.
Qed.

Example get_ushort_wraps_around : Baro.get_ushort [0x01; 0x02; 0x03] (-1) = Ret 0x0103.
Proof. reflexivity. Qed.

(** ** Frame length and the calibration parser *)

Section FrameLength.

Lemma get_ushort_app_l (l l' : list Z) (i : Z) :
  0 <= i -> i + 1 < Z.of_nat (length l) ->
  Baro.get_ushort (l ++ l') i = Baro.get_ushort l i.
Proof.
  intros H0 H1. unfold Baro.get_ushort.
  rewrite !list_getitem_app_l by lia. reflexivity.
Qed.

Lemma signed_field_app_l (l l' : list Z) (i : Z) :
  0 <= i -> i + 1 < Z.of_nat (length l) ->
  Baro.signed_field (l ++ l') i = Baro.signed_field l i.
Proof.
  intros H0 H1. unfold Baro.signed_field.
  rewrite !list_getitem_app_l by lia. reflexivity.
Qed.

Lemma get_ushort_returns (l : list Z) (i : Z) :
  0 <= i -> i + 1 < Z.of_nat (length l) ->
  exists v, Baro.get_ushort l i = Ret v.
Proof.
  intros H0 H1. unfold Baro.get_ushort.
  destruct (list_getitem_valid l (i + 1)) as (hi & -> & _); [lia |].
  destruct (list_getitem_valid l i) as (lo & -> & _); [lia |].
  cbn [Py.bind]. eauto.
Qed.

Lemma signed_field_returns (l : list Z) (i : Z) :
  0 <= i -> i + 1 < Z.of_nat (length l) ->
  exists v, Baro.signed_field l i = Ret v.
Proof.
  intros H0 H1. unfold Baro.signed_field.
  destruct (list_getitem_valid l (i + 1)) as (hi & -> & _); [lia |].
  destruct (list_getitem_valid l i) as (lo & -> & _); [lia |].
  cbn [Py.bind]. eauto.
Qed.

End FrameLength.

(** X2: a calibration block of fewer than 24 elements makes the parser
    raise [IndexError], whatever the elements are. *)
Theorem parse_calibration_short_frame (calib : list Z) :
  (length calib < 24)%nat ->
  Baro.parse_calibration calib = Raise IndexError.
Proof.
  intros Hlen.
  do 24 (destruct calib as [| ? calib]; [reflexivity |]).
  cbn [length] in Hlen. lia.
Qed.

Lemma parse_calibration_short_frame_witness :
  Baro.parse_calibration (firstn 23 ref_frame) = Raise IndexError.
Proof.
  apply (parse_calibration_short_frame (firstn 23 ref_frame)).
  cbn. lia.
Defined.

Lemma parse_calibration_returns (calib : list Z) :
  (24 <= length calib)%nat -> exists dig, Baro.parse_calibration calib = Ret dig.
Proof.
  intros Hlen. unfold Baro.parse_calibration.
  destruct (get_ushort_returns calib 0) as [v0 ->]; [lia | lia |].
  destruct (signed_field_returns calib 2) as [v2 ->]; [lia | lia |].
  destruct (signed_field_returns calib 4) as [v4 ->]; [lia | lia |].
  destruct (get_ushort_returns calib 6) as [v6 ->]; [lia | lia |].
  destruct (signed_field_returns calib 8) as [v8 ->]; [lia | lia |].
  destruct (signed_field_returns calib 10) as [v10 ->]; [lia | lia |].
  destruct (signed_field_returns calib 12) as [v12 ->]; [lia | lia |].
  destruct (signed_field_returns calib 14) as [v14 ->]; [lia | lia |].
  destruct (signed_field_returns calib 16) as [v16 ->]; [lia | lia |].
  destruct (signed_field_returns calib 18) as [v18 ->]; [lia | lia |].
  destruct (signed_field_returns calib 20) as [v20 ->]; [lia | lia |].
  destruct (signed_field_returns calib 22) as [v22 ->]; [lia | lia |].
  cbn [Py.bind]. eauto.
Qed.

Lemma parse_calibration_raises (calib : list Z) (e : exn) :
  Baro.parse_calibration calib = Raise e ->
  e = IndexError /\ (length calib < 24)%nat.
Proof.
  intros Hraise. split.
  - revert Hraise.
    unfold Baro.parse_calibration, Baro.get_ushort, Baro.signed_field.
    repeat match goal with
           | |- context [list_getitem calib ?i] =>
               let H := fresh "Hi" in
               destruct (list_getitem calib i) eqn:H; cbn [Py.bind];
               [| intros [= <-]; exact (list_getitem_raises _ _ _ H)]
           end.
    discriminate.
  - destruct (Nat.lt_ge_cases (length calib) 24) as [Hlt | Hge]; [exact Hlt |].
    destruct (parse_calibration_returns calib Hge) as [dig Hdig]. congruence.
Qed.

(** X3: on a block of at least 24 elements the parser succeeds, whatever
    the elements are, and reads only the first 24: anything after them is
    ignored. *)
Theorem parse_calibration_ignores_tail (calib extra : list Z) :
  length calib = 24%nat ->
  exists dig,
    Baro.parse_calibration calib = Ret dig /\
    Baro.parse_calibration (calib ++ extra) = Ret dig.
Proof.
  intros Hlen.
  destruct (parse_calibration_returns calib) as [dig Hdig]; [lia |].
  exists dig. split; [exact Hdig |].
  rewrite <- Hdig. unfold Baro.parse_calibration.
  rewrite !get_ushort_app_l, !signed_field_app_l by (rewrite ?Hlen; lia).
  reflexivity.
Qed.

Lemma parse_calibration_ignores_tail_witness :
  Baro.parse_calibration (ref_frame ++ [0xAA; 0x55]) = Ret ref_dig.
Proof.
  destruct (parse_calibration_ignores_tail ref_frame [0xAA; 0x55] eq_refl)
    as (dig & Hparse & Htail).
  rewrite Htail, <- Hparse. vm_compute. reflexivity.
Defined.

(** ** No information is lost by the decoders *)

Section Injectivity.

Lemma leUint16_inj (lo hi lo' hi' : Z) :
  is_byte lo -> is_byte hi -> is_byte lo' -> is_byte hi' ->
  leUint16 lo hi = leUint16 lo' hi' -> lo = lo' /\ hi = hi'.
Proof.
  unfold leUint16. intros Hlo Hhi Hlo' Hhi'.
  rewrite !be16_value by assumption. unfold is_byte in *. lia.
Qed.

Lemma leInt16_inj (lo hi lo' hi' : Z) :
  is_byte lo -> is_byte hi -> is_byte lo' -> is_byte hi' ->
  leInt16 lo hi = leInt16 lo' hi' -> lo = lo' /\ hi = hi'.
Proof.
  unfold leInt16, leUint16. intros Hlo Hhi Hlo' Hhi'.
  rewrite !be16_value by assumption. unfold is_byte in *.
  destruct (Z.leb_spec 0x8000 (hi * 256 + lo));
    destruct (Z.leb_spec 0x8000 (hi' * 256 + lo')); lia.
Qed.

Lemma coefficient_value_inj (c c' : list Z) (off : nat) (signed : bool) :
  Forall is_byte c -> Forall is_byte c' ->
  (off + 1 < length c)%nat -> (off + 1 < length c')%nat ->
  coefficient_value c off signed = coefficient_value c' off signed ->
  c !! off = c' !! off /\ c !! (off + 1)%nat = c' !! (off + 1)%nat.
Proof.
  intros Hc Hc' Hoff Hoff' Heq.
  destruct (lookup_lt_is_Some_2 c off) as [lo Hlo]; [lia |].
  destruct (lookup_lt_is_Some_2 c (off + 1)) as [hi Hhi]; [lia |].
  destruct (lookup_lt_is_Some_2 c' off) as [lo' Hlo']; [lia |].
  destruct (lookup_lt_is_Some_2 c' (off + 1)) as [hi' Hhi']; [lia |].
  unfold coefficient_value in Heq.
  rewrite (nth_lookup_Some _ _ 0 _ Hlo), (nth_lookup_Some _ _ 0 _ Hhi),
    (nth_lookup_Some _ _ 0 _ Hlo'), (nth_lookup_Some _ _ 0 _ Hhi') in Heq.
  pose proof (Forall_lookup_1 _ _ _ _ Hc Hlo).
  pose proof (Forall_lookup_1 _ _ _ _ Hc Hhi).
  pose proof (Forall_lookup_1 _ _ _ _ Hc' Hlo').
  pose proof (Forall_lookup_1 _ _ _ _ Hc' Hhi').
  rewrite Hlo, Hhi, Hlo', Hhi'.
  destruct signed;
    [destruct (leInt16_inj lo hi lo' hi') as [-> ->]
    | destruct (leUint16_inj lo hi lo' hi') as [-> ->]]; auto.
Qed.

(** The dictionary the parser builds from a 24-byte frame, written out. *)
Lemma parse_calibration_value (calib : list Z) :
  length calib = 24%nat -> Forall is_byte calib ->
  Baro.parse_calibration calib =
    Ret (<["P9" := coefficient_value calib 22 true]> (
         <["P8" := coefficient_value calib 20 true]> (
         <["P7" := coefficient_value calib 18 true]> (
         <["P6" := coefficient_value calib 16 true]> (
         <["P5" := coefficient_value calib 14 true]> (
         <["P4" := coefficient_value calib 12 true]> (
         <["P3" := coefficient_value calib 10 true]> (
         <["P2" := coefficient_value calib 8 true]> (
         <["P1" := coefficient_value calib 6 false]> (
         <["T3" := coefficient_value calib 4 true]> (
         <["T2" := coefficient_value calib 2 true]> (
         <["T1" := coefficient_value calib 0 false]> ∅)))))))))))).
Proof.
  intros Hlen Hall. unfold Baro.parse_calibration.
  change 0 with (Z.of_nat 0) at 1. change 2 with (Z.of_nat 2).
  change 4 with (Z.of_nat 4). change 6 with (Z.of_nat 6).
  change 8 with (Z.of_nat 8). change 10 with (Z.of_nat 10).
  change 12 with (Z.of_nat 12). change 14 with (Z.of_nat 14).
  change 16 with (Z.of_nat 16). change 18 with (Z.of_nat 18).
  change 20 with (Z.of_nat 20). change 22 with (Z.of_nat 22).
  rewrite !get_ushort_coefficient, !signed_field_coefficient
    by (rewrite ?Hlen; auto; lia).
  reflexivity.
Qed.

End Injectivity.

(** X4: the calibration parser loses no information: two 24-byte frames
    that parse to the same dictionary are the same frame. *)
Theorem parse_calibration_injective (c c' : list Z) :
  length c = 24%nat -> length c' = 24%nat ->
  Forall is_byte c -> Forall is_byte c' ->
  Baro.parse_calibration c = Baro.parse_calibration c' ->
  c = c'.
Proof.
  intros Hlen Hlen' Hc Hc' Heq.
  rewrite !parse_calibration_value in Heq by assumption.
  match type of Heq with
  | Ret ?d = Ret ?d' => assert (Hd : d = d') by congruence
  end.
  clear Heq. rename Hd into Heq.
  assert (Hfield : forall name (off : nat) signed,
             In (name, off, signed) coefficient_table ->
             c !! off = c' !! off /\ c !! (off + 1)%nat = c' !! (off + 1)%nat).
  { intros name off signed Hin.
    apply (coefficient_value_inj c c' off signed); try assumption.
    - cbn in Hin. rewrite Hlen.
      repeat (destruct Hin as [[= <- <- <-] | Hin]; [lia |]). contradiction.
    - cbn in Hin. rewrite Hlen'.
      repeat (destruct Hin as [[= <- <- <-] | Hin]; [lia |]). contradiction.
    - apply (f_equal (fun m : gmap string Z => m !! name)) in Heq.
      cbn in Hin.
      repeat (destruct Hin as [[= <- <- <-] | Hin];
              [simplify_map_eq; congruence |]).
      contradiction. }
  apply list_eq. intros i.
  destruct (Nat.lt_ge_cases i 24) as [Hi | Hi].
  2:{ rewrite !lookup_ge_None_2 by lia. reflexivity. }
  destruct (Hfield "T1" 0%nat false) as [? ?]; [cbn; tauto |].
  destruct (Hfield "T2" 2%nat true) as [? ?]; [cbn; tauto |].
  destruct (Hfield "T3" 4%nat true) as [? ?]; [cbn; tauto |].
  destruct (Hfield "P1" 6%nat false) as [? ?]; [cbn; tauto |].
  destruct (Hfield "P2" 8%nat true) as [? ?]; [cbn; tauto |].
  destruct (Hfield "P3" 10%nat true) as [? ?]; [cbn; tauto |].
  destruct (Hfield "P4" 12%nat true) as [? ?]; [cbn; tauto |].
  destruct (Hfield "P5" 14%nat true) as [? ?]; [cbn; tauto |].
  destruct (Hfield "P6" 16%nat true) as [? ?]; [cbn; tauto |].
  destruct (Hfield "P7" 18%nat true) as [? ?]; [cbn; tauto |].
  destruct (Hfield "P8" 20%nat true) as [? ?]; [cbn; tauto |].
  destruct (Hfield "P9" 22%nat true) as [? ?]; [cbn; tauto |].
  do 24 (destruct i as [| i]; [assumption |]).
  lia.
Qed.

Lemma parse_calibration_injective_witness : ref_frame = ref_frame.
Proof.
  apply (parse_calibration_injective ref_frame ref_frame);
    try reflexivity; repeat constructor; unfold is_byte; lia.
Defined.

(** X5: the 20-bit raw code keeps the first two bytes and the high nibble
    of the third and nothing else: they are read back from the code by
    shifts and masks, so two triplets give the same code exactly when they
    agree on those three fields. *)
Theorem u20FromTriplet_roundtrip (msb lsb xlsb : Z) :
  is_byte msb -> is_byte lsb -> is_byte xlsb ->
  u20_triplet (Baro.u20FromTriplet msb lsb xlsb) = (msb, lsb, Z.shiftr xlsb 4) /\
  (forall msb' lsb' xlsb',
     is_byte msb' -> is_byte lsb' -> is_byte xlsb' ->
     (Baro.u20FromTriplet msb lsb xlsb = Baro.u20FromTriplet msb' lsb' xlsb' <->
      msb = msb' /\ lsb = lsb' /\ Z.shiftr xlsb 4 = Z.shiftr xlsb' 4)).
Proof.
  intros Hm Hl Hx.
  assert (Hback : forall a b c, is_byte a -> is_byte b -> is_byte c ->
            u20_triplet (Baro.u20FromTriplet a b c) = (a, b, Z.shiftr c 4)).
  { intros a b c Ha Hb Hc. rewrite u20FromTriplet_value by assumption.
    unfold u20_triplet, is_byte in *.
    change 255 with (Z.ones 8). change 15 with (Z.ones 4).
    rewrite !Z.land_ones, !Z.shiftr_div_pow2 by lia.
    change (2 ^ 12) with 4096. change (2 ^ 8) with 256. change (2 ^ 4) with 16.
    repeat f_equal; Z.div_mod_to_equations; lia. }
  split; [apply Hback; assumption |].
  intros a b c Ha Hb Hc. split.
  - intros Heq. pose proof (Hback msb lsb xlsb Hm Hl Hx) as H1.
    rewrite Heq, Hback in H1 by assumption.
    injection H1 as -> -> ->. auto.
  - unfold Baro.u20FromTriplet. intros (-> & -> & ->). reflexivity.
Qed.

Lemma u20FromTriplet_roundtrip_witness :
  u20_triplet (Baro.u20FromTriplet 0x7E 0xED 0x0F) = (0x7E, 0xED, 0).
Proof.
  apply (u20FromTriplet_roundtrip 0x7E 0xED 0x0F); unfold is_byte; lia.
Defined.

(** ** What the compensation arithmetic can raise *)

Section CompensationErrors.

Local Open Scope float_scope.

Lemma dict_getitem_raises (d : gmap string Z) (k : string) (e : exn) :
  dict_getitem d k = Raise e -> e = KeyError k /\ d !! k = None.
Proof.
  unfold dict_getitem. destruct (d !! k); [discriminate |].
  intros [= <-]. auto.
Qed.

Lemma dict_getitem_returns (d : gmap string Z) (k : string) (v : Z) :
  dict_getitem d k = Ret v -> d !! k = Some v.
Proof.
  unfold dict_getitem. destruct (d !! k); [| discriminate].
  intros [= <-]. reflexivity.
Qed.

Lemma fpow2_raises (x : float) (e : exn) : fpow2 x = Raise e -> e = OverflowError.
Proof.
  unfold fpow2. destruct (_ && _); [| discriminate].
  intros [= <-]. reflexivity.
Qed.

Lemma missing_coefficient (dig : gmap string Z) (k : string) (e : exn) :
  In k coefficient_names ->
  dict_getitem dig k = Raise e -> compensation_error dig e.
Proof.
  intros Hin Hk. destruct (dict_getitem_raises _ _ _ Hk) as [-> Hnone].
  right. exists k. auto.
Qed.

Ltac step_compensation dig :=
  repeat first
    [ rewrite fdiv_nonzero by reflexivity; cbn [Py.bind]
    | match goal with
      | |- context [dict_getitem dig ?k] =>
          let H := fresh "Hk" in
          destruct (dict_getitem dig k) eqn:H; cbn [Py.bind];
          [| intros [= <-];
             apply (missing_coefficient dig k); [cbn; tauto | exact H]]
      | |- context [fpow2 ?x] =>
          let H := fresh "Hp" in
          destruct (fpow2 x) eqn:H; cbn [Py.bind];
          [| intros [= <-]; left; exact (fpow2_raises _ _ H)]
      end ];
  try discriminate.

Lemma temperature_fine_raises (dig : gmap string Z) (adc_t : Z) (e : exn) :
  Baro.temperature_fine dig adc_t = Raise e -> compensation_error dig e.
Proof. unfold Baro.temperature_fine. step_compensation dig. Qed.

Lemma pressure_setup_raises (dig : gmap string Z) (t_fine : float) (e : exn) :
  Baro.pressure_setup dig t_fine = Raise e -> compensation_error dig e.
Proof. unfold Baro.pressure_setup. step_compensation dig. Qed.

Lemma pressure_pascal_raises (dig : gmap string Z) (adc_p : Z)
    (var1 var2 : float) (e : exn) :
  Baro.pressure_pascal dig adc_p var1 var2 = Raise e -> compensation_error dig e.
Proof.
  unfold Baro.pressure_pascal.
  destruct (var1 =? 0) eqn:Hguard; [discriminate |].
  rewrite fdiv_nonzero by reflexivity. cbn [Py.bind].
  rewrite (fdiv_nonzero _ var1 Hguard). cbn [Py.bind].
  step_compensation dig.
Qed.

Lemma compensate_raises (dig : gmap string Z) (adc_p adc_t : Z) (e : exn) :
  Baro.compensate dig adc_p adc_t = Raise e -> compensation_error dig e.
Proof.
  unfold Baro.compensate.
  destruct (Baro.temperature_fine dig adc_t) as [t_fine | e0] eqn:Ht;
    cbn [Py.bind];
    [| intros [= <-]; exact (temperature_fine_raises _ _ _ Ht)].
  rewrite fdiv_nonzero by reflexivity. cbn [Py.bind].
  destruct (Baro.pressure_setup dig t_fine) as [[var1 var2] | e0] eqn:Hs;
    cbn [Py.bind];
    [| intros [= <-]; exact (pressure_setup_raises _ _ _ Hs)].
  destruct (Baro.pressure_pascal dig adc_p var1 var2) as [p | e0] eqn:Hp;
    cbn [Py.bind];
    [| intros [= <-]; exact (pressure_pascal_raises _ _ _ _ _ Hp)].
  rewrite fdiv_nonzero by reflexivity. discriminate.
Qed.

(** The temperature of a reading is [t_fine / 5120.0]. *)
Lemma compensate_temperature (dig : gmap string Z) (adc_p adc_t : Z)
    (temp_c hpa : float) :
  Baro.compensate dig adc_p adc_t = Ret (temp_c, hpa) ->
  exists t_fine,
    Baro.temperature_fine dig adc_t = Ret t_fine /\ temp_c = t_fine / 5120.0.
Proof.
  unfold Baro.compensate.
  destruct (Baro.temperature_fine dig adc_t) as [t_fine |]; [| discriminate].
  cbn [Py.bind]. rewrite fdiv_nonzero by reflexivity. cbn [Py.bind].
  destruct (Baro.pressure_setup dig t_fine) as [[var1 var2] |]; [| discriminate].
  cbn [Py.bind].
  destruct (Baro.pressure_pascal dig adc_p var1 var2); [| discriminate].
  cbn [Py.bind]. rewrite fdiv_nonzero by reflexivity. cbn [Py.bind].
  intros [= <- _]. eauto.
Qed.

Lemma temperature_fine_coefficients (dig dig' : gmap string Z) (adc_t : Z) :
  dig !! "T1" = dig' !! "T1" -> dig !! "T2" = dig' !! "T2" ->
  dig !! "T3" = dig' !! "T3" ->
  Baro.temperature_fine dig adc_t = Baro.temperature_fine dig' adc_t.
Proof.
  intros H1 H2 H3. unfold Baro.temperature_fine, dict_getitem.
  rewrite H1, H2, H3. reflexivity.
Qed.

End CompensationErrors.


Example compensate_missing_T3 :
  Baro.compensate (delete "T3" ref_dig) 415148 519888 = Raise (KeyError "T3").
Proof. vm_compute. reflexivity. Qed.

(** Every dictionary the parser returns holds the twelve coefficients. *)
Lemma parse_calibration_complete (calib : list Z) (dig : gmap string Z) :
  Baro.parse_calibration calib = Ret dig -> complete_calibration dig.
Proof.
  unfold Baro.parse_calibration.
  repeat match goal with
         | |- context [Baro.get_ushort calib ?i] =>
             destruct (Baro.get_ushort calib i); cbn [Py.bind]; [| discriminate]
         | |- context [Baro.signed_field calib ?i] =>
             destruct (Baro.signed_field calib i); cbn [Py.bind]; [| discriminate]
         end.
  intros [= <-] k Hin. cbn in Hin.
  repeat (destruct Hin as [<- | Hin]; [simplify_map_eq; eauto |]).
  contradiction.
Qed.

(** X7: a dictionary returned by the calibration parser holds all twelve
    coefficients, so the compensation run on it never raises [KeyError]:
    it returns a reading or stops on an overflowing square. *)
Theorem parsed_calibration_is_complete (calib : list Z) (dig : gmap string Z) :
  Baro.parse_calibration calib = Ret dig ->
  complete_calibration dig /\
  (forall adc_p adc_t e,
     Baro.compensate dig adc_p adc_t = Raise e -> e = OverflowError).
Proof.
  intros Hparse.
  pose proof (parse_calibration_complete calib dig Hparse) as Hfull.
  split; [exact Hfull |].
  intros adc_p adc_t e H. apply compensate_raises in H.
  destruct H as [H | (k & _ & Hin & Hnone)]; [exact H |].
  destruct (Hfull k Hin) as [v Hv]. congruence.
Qed.

Lemma parsed_calibration_is_complete_witness : complete_calibration ref_dig.
Proof.
  refine (proj1 (parsed_calibration_is_complete ref_frame ref_dig _)).
  vm_compute. reflexivity.
Defined.

(** X8: the temperature of a reading depends on the temperature code and
    on T1, T2 and T3 only: two runs that share them return the same
    temperature, whatever their pressure codes and pressure coefficients. *)
Theorem temperature_ignores_pressure_inputs
    (dig dig' : gmap string Z) (adc_p adc_p' adc_t : Z)
    (temp_c hpa temp_c' hpa' : float) :
  dig !! "T1" = dig' !! "T1" -> dig !! "T2" = dig' !! "T2" ->
  dig !! "T3" = dig' !! "T3" ->
  Baro.compensate dig adc_p adc_t = Ret (temp_c, hpa) ->
  Baro.compensate dig' adc_p' adc_t = Ret (temp_c', hpa') ->
  temp_c' = temp_c.
Proof.
  intros H1 H2 H3 Hrun Hrun'.
  destruct (compensate_temperature _ _ _ _ _ Hrun) as (t & Ht & ->).
  destruct (compensate_temperature _ _ _ _ _ Hrun') as (t' & Ht' & ->).
  rewrite (temperature_fine_coefficients dig dig' adc_t H1 H2 H3) in Ht.
  congruence.
Qed.

Lemma temperature_ignores_pressure_inputs_witness :
  exists temp_c hpa temp_c' hpa',
    Baro.compensate ref_dig 415148 519888 = Ret (temp_c, hpa) /\
    Baro.compensate zero_P1_dig 300000 519888 = Ret (temp_c', hpa') /\
    temp_c' = temp_c.
Proof.
  eassert (Hrun : Baro.compensate ref_dig 415148 519888 = Ret (_, _))
    by (vm_compute; reflexivity).
  eassert (Hrun' : Baro.compensate zero_P1_dig 300000 519888 = Ret (_, _))
    by (vm_compute; reflexivity).
  do 4 eexists. split; [exact Hrun |]. split; [exact Hrun' |].
  exact (temperature_ignores_pressure_inputs ref_dig zero_P1_dig
           415148 300000 519888 _ _ _ _
           eq_refl eq_refl eq_refl Hrun Hrun').
Defined.

(** ** The barometer on the bus *)

Section BaroBus.

Variable bus : Bus.SMBus.

Lemma raw_codes_returns (data : list Z) :
  (6 <= length data)%nat -> exists codes, Baro.raw_codes data = Ret codes.
Proof.
  intros Hlen. unfold Baro.raw_codes.
  destruct (list_getitem_valid data 0) as (d0 & -> & _); [lia |].
  destruct (list_getitem_valid data 1) as (d1 & -> & _); [lia |].
  destruct (list_getitem_valid data 2) as (d2 & -> & _); [lia |].
  destruct (list_getitem_valid data 3) as (d3 & -> & _); [lia |].
  destruct (list_getitem_valid data 4) as (d4 & -> & _); [lia |].
  destruct (list_getitem_valid data 5) as (d5 & -> & _); [lia |].
  cbn [Py.bind]. eauto.
Qed.

Lemma raw_codes_raises (data : list Z) (e : exn) :
  Baro.raw_codes data = Raise e -> e = IndexError /\ (length data < 6)%nat.
Proof.
  intros Hraise. split.
  - revert Hraise. unfold Baro.raw_codes.
    repeat match goal with
           | |- context [list_getitem data ?i] =>
               let H := fresh "Hi" in
               destruct (list_getitem data i) eqn:H; cbn [Py.bind];
               [| intros [= <-]; exact (list_getitem_raises _ _ _ H)]
           end.
    discriminate.
  - destruct (Nat.lt_ge_cases (length data) 6) as [Hlt | Hge]; [exact Hlt |].
    destruct (raw_codes_returns data Hge) as [codes Hcodes]. congruence.
Qed.

Lemma baro_read_data_history (dig : gmap string Z) (h : list Bus.request) :
  snd (Baro.read_data bus dig h) = h ++ [baro_data_read].
Proof.
  unfold Baro.read_data, Bus.bind, Bus.read_i2c_block_data, Bus.lift.
  change (Bus.ReadBlockData _ _ 6) with baro_data_read.
  pose proof (transact_history bus baro_data_read h) as Hh.
  destruct (Bus.transact bus baro_data_read h) as [[data | e] h'];
    cbn [snd] in Hh; subst h'; [| reflexivity].
  destruct (Baro.raw_codes data) as [[adc_p adc_t] |]; reflexivity.
Qed.

Lemma read_calibration_data_history (h : list Bus.request) :
  snd (Baro.read_calibration_data bus h) = h ++ [baro_calib_read].
Proof.
  unfold Baro.read_calibration_data, Bus.bind, Bus.read_i2c_block_data, Bus.lift.
  change (Bus.ReadBlockData _ _ 24) with baro_calib_read.
  pose proof (transact_history bus baro_calib_read h) as Hh.
  destruct (Bus.transact bus baro_calib_read h) as [[data | e] h'];
    cbn [snd] in Hh; subst h'; reflexivity.
Qed.

(** Everything [setup_sensor] can do, by the answers of the bus. *)
Lemma setup_sensor_cases (h : list Bus.request) :
  (bus h baro_control_write = None /\
   Baro.setup_sensor bus h = (Raise OSError, h ++ [baro_control_write])) \/
  (bus h baro_control_write <> None /\
   bus (h ++ [baro_control_write]) baro_config_write = None /\
   Baro.setup_sensor bus h =
     (Raise OSError, h ++ [baro_control_write; baro_config_write])) \/
  (bus h baro_control_write <> None /\
   bus (h ++ [baro_control_write]) baro_config_write <> None /\
   Baro.setup_sensor bus h =
     (Ret tt, h ++ [baro_control_write; baro_config_write])).
Proof.
  unfold Baro.setup_sensor, Bus.write_byte_data, Bus.bind.
  change (Bus.WriteByteData _ Baro.REG_CONTROL _) with baro_control_write.
  change (Bus.WriteByteData _ Baro.REG_CONFIG _) with baro_config_write.
  destruct (bus h baro_control_write) as [d1 |] eqn:H1.
  2:{ left. rewrite (transact_failed _ _ _ H1). auto. }
  right. rewrite (transact_answered _ _ _ _ H1). cbn [Bus.ret].
  destruct (bus (h ++ [baro_control_write]) baro_config_write) as [d2 |] eqn:H2.
  - right. rewrite (transact_answered _ _ _ _ H2), <- app_assoc.
    cbn [Bus.ret app]. repeat split; congruence.
  - left. rewrite (transact_failed _ _ _ H2), <- app_assoc.
    repeat split; congruence.
Qed.

End BaroBus.

(** X9: [setup_sensor] writes 0x27 to the control register and then 0xA0
    to the configuration register, and nothing else; it returns normally
    exactly when both writes are acknowledged, raises only [OSError], and
    when the first write fails the second is not attempted. *)
Theorem setup_sensor_outcomes (bus : Bus.SMBus) (h : list Bus.request) :
  (fst (Baro.setup_sensor bus h) = Ret tt <->
   bus h baro_control_write <> None /\
   bus (h ++ [baro_control_write]) baro_config_write <> None) /\
  (forall e, fst (Baro.setup_sensor bus h) = Raise e -> e = OSError) /\
  (fst (Baro.setup_sensor bus h) = Ret tt ->
   snd (Baro.setup_sensor bus h) = h ++ [baro_control_write; baro_config_write]) /\
  (bus h baro_control_write = None ->
   snd (Baro.setup_sensor bus h) = h ++ [baro_control_write]) /\
  baro_control_write = Bus.WriteByteData 0x76 0xF4 0x27 /\
  baro_config_write = Bus.WriteByteData 0x76 0xF5 0xA0.
Proof.
  destruct (setup_sensor_cases bus h)
    as [(H1 & ->) | [(H1 & H2 & ->) | (H1 & H2 & ->)]]; cbn [fst snd].
  - repeat split; try reflexivity; try discriminate;
      try (intros [? ?]; congruence); try congruence.
  - repeat split; try reflexivity; try discriminate;
      try (intros [? ?]; congruence); try congruence.
  - repeat split; try reflexivity; try discriminate; try assumption;
      try congruence.
Qed.

(** X10: the barometer [read_data] makes exactly one transfer, the 6-byte
    read at 0xF7, and can raise only [OSError], when that transfer fails,
    [IndexError], when the bus hands back fewer than six bytes, or what the
    compensation arithmetic raises; a failed or short transfer is reported
    whatever the calibration dictionary. *)
Theorem baro_read_data_error_contract
    (bus : Bus.SMBus) (dig : gmap string Z) (h h' : list Bus.request) (e : exn) :
  Baro.read_data bus dig h = (Raise e, h') ->
  h' = h ++ [Bus.ReadBlockData 0x76 0xF7 6] /\
  ((e = OSError /\ bus h baro_data_read = None) \/
   (e = IndexError /\
    exists data, bus h baro_data_read = Some data /\ (length data < 6)%nat) \/
   compensation_error dig e).
Proof.
  intros Hrun.
  pose proof (baro_read_data_history bus dig h) as Hh.
  rewrite Hrun in Hh. cbn [snd] in Hh. split; [exact Hh |].
  revert Hrun.
  unfold Baro.read_data, Bus.bind, Bus.read_i2c_block_data, Bus.lift.
  change (Bus.ReadBlockData _ _ 6) with baro_data_read.
  destruct (bus h baro_data_read) as [data |] eqn:Hbus.
  - rewrite (transact_answered _ _ _ _ Hbus).
    destruct (Baro.raw_codes data) as [[adc_p adc_t] | e0] eqn:Hcodes.
    + intros [= Hc _]. right. right. exact (compensate_raises _ _ _ _ Hc).
    + intros [= <- _]. right. left.
      destruct (raw_codes_raises _ _ Hcodes) as [-> Hlen]. eauto.
  - rewrite (transact_failed _ _ _ Hbus). intros [= <- _]. left. auto.
Qed.

Lemma baro_read_data_error_contract_witness :
  [baro_data_read] = [] ++ [Bus.ReadBlockData 0x76 0xF7 6] /\
  ((OSError = OSError /\ dead_bus [] baro_data_read = None) \/
   (OSError = IndexError /\
    exists data, dead_bus [] baro_data_read = Some data /\ (length data < 6)%nat) \/
   compensation_error ref_dig OSError).
Proof.
  exact (baro_read_data_error_contract dead_bus ref_dig []
           [baro_data_read] OSError eq_refl).
Defined.

(** X11: [read_calibration_data] makes exactly one transfer, the 24-byte
    read at 0x88.  It raises [OSError] exactly when that transfer fails and
    [IndexError] exactly when the bus hands back fewer than 24 bytes; in
    every other case it returns a dictionary holding all twelve
    coefficients, parsed from the first 24 bytes handed back. *)
Theorem read_calibration_data_contract
    (bus : Bus.SMBus) (h h' : list Bus.request) (out : outcome (gmap string Z)) :
  Baro.read_calibration_data bus h = (out, h') ->
  h' = h ++ [Bus.ReadBlockData 0x76 0x88 24] /\
  match out with
  | Raise e =>
      (e = OSError /\ bus h baro_calib_read = None) \/
      (e = IndexError /\
       exists data, bus h baro_calib_read = Some data /\ (length data < 24)%nat)
  | Ret dig =>
      exists data,
        bus h baro_calib_read = Some data /\ (24 <= length data)%nat /\
        Baro.parse_calibration (firstn 24 data) = Ret dig /\
        complete_calibration dig
  end.
Proof.
  intros Hrun.
  pose proof (read_calibration_data_history bus h) as Hh.
  rewrite Hrun in Hh. cbn [snd] in Hh. split; [exact Hh |].
  revert Hrun.
  unfold Baro.read_calibration_data, Bus.bind, Bus.read_i2c_block_data, Bus.lift.
  change (Bus.ReadBlockData _ _ 24) with baro_calib_read.
  destruct (bus h baro_calib_read) as [data |] eqn:Hbus.
  - rewrite (transact_answered _ _ _ _ Hbus). intros [= <- _].
    destruct (Baro.parse_calibration data) as [dig | e] eqn:Hparse.
    + assert (Hlen : (24 <= length data)%nat).
      { destruct (Nat.lt_ge_cases (length data) 24) as [Hlt | Hge]; [| exact Hge].
        exfalso. clear Hh.
        assert (Hshort : Baro.parse_calibration data = Raise IndexError).
        { clear Hparse Hbus. revert Hlt.
          do 24 (destruct data as [| ? data]; [reflexivity |]).
          cbn [length]. lia. }
        congruence. }
      exists data. split; [reflexivity |]. split; [exact Hlen |].
      split; [| exact (parse_calibration_complete data dig Hparse)].
      rewrite <- Hparse. rewrite <- (firstn_skipn 24 data) at 2.
      unfold Baro.parse_calibration.
      rewrite !get_ushort_app_l, !signed_field_app_l
        by (rewrite ?length_take; lia).
      reflexivity.
    + right. destruct (parse_calibration_raises _ _ Hparse) as [-> Hlen]. eauto.
  - rewrite (transact_failed _ _ _ Hbus). intros [= <- _]. left. auto.
Qed.

Lemma read_calibration_data_contract_witness :
  [baro_calib_read] = [] ++ [Bus.ReadBlockData 0x76 0x88 24] /\
  exists data,
    steady_bus [] baro_calib_read = Some data /\ (24 <= length data)%nat /\
    Baro.parse_calibration (firstn 24 data) = Ret ref_dig /\
    complete_calibration ref_dig.
Proof.
  apply (read_calibration_data_contract steady_bus [] [baro_calib_read]
           (Ret ref_dig)).
  vm_compute. reflexivity.
Defined.

(** ** The barometer main program *)

Section BaroMain.

Variable bus : Bus.SMBus.
Variable report : float -> float -> outcome unit.





Lemma baro_steady_read (dig : gmap string Z) (data : list Z)
    (adc_p adc_t : Z) (reading : float * float) (h : list Bus.request) :
  bus h baro_data_read = Some data ->
  Baro.raw_codes data = Ret (adc_p, adc_t) ->
  Baro.compensate dig adc_p adc_t = Ret reading ->
  Baro.read_data bus dig h = (Ret reading, h ++ [baro_data_read]).
Proof.
  intros Hbus Hcodes Hcomp.
  unfold Baro.read_data, Bus.bind, Bus.read_i2c_block_data, Bus.lift.
  change (Bus.ReadBlockData _ _ 6) with baro_data_read.
  rewrite (transact_answered _ _ _ _ Hbus), Hcodes, Hcomp. reflexivity.
Qed.

End BaroMain.


(** X13: on a barometer that acknowledges the two configuration writes and
    answers the calibration read and every data read with fixed frames from
    which the compensation returns a reading the reporting code accepts, a
    run interrupted after [n] cycles consists of the initialization followed
    by exactly [n] data reads, and ends by reporting the measurement as
    stopped. *)
Theorem baro_main_steady_run
    (bus : Bus.SMBus) (report : float -> float -> outcome unit)
    (n : nat) (h : list Bus.request) (frame data : list Z)
    (dig : gmap string Z) (adc_p adc_t : Z) (temp_c hpa : float) :
  (forall h', bus h' baro_control_write <> None) ->
  (forall h', bus h' baro_config_write <> None) ->
  (forall h', bus h' baro_calib_read = Some frame) ->
  (forall h', bus h' baro_data_read = Some data) ->
  Baro.parse_calibration frame = Ret dig ->
  Baro.raw_codes data = Ret (adc_p, adc_t) ->
  Baro.compensate dig adc_p adc_t = Ret (temp_c, hpa) ->
  report temp_c hpa = Ret tt ->
  Baro.main bus report n h = (Ret Baro.MeasurementStopped, h ++ baro_traffic n).
Proof.
  intros Hctl Hcfg Hcal Hdata Hparse Hcodes Hcomp Hrep.
  assert (Hpoll : forall k h',
             Baro.poll bus report k dig h' =
               (Raise KeyboardInterrupt, h' ++ repeat baro_data_read k)).
  { induction k as [| k IH]; intros h'.
    - cbn. rewrite app_nil_r. reflexivity.
    - cbn [Baro.poll repeat]. unfold Bus.bind at 1.
      rewrite (baro_steady_read bus dig data adc_p adc_t (temp_c, hpa) h'
                 (Hdata h') Hcodes Hcomp).
      unfold Bus.bind, Bus.lift. rewrite Hrep, IH, <- app_assoc. reflexivity. }
  unfold Baro.main, Bus.bind at 1.
  destruct (setup_sensor_cases bus h)
    as [(H1 & _) | [(_ & H2 & _) | (_ & _ & ->)]];
    [exfalso; exact (Hctl h H1) | exfalso; exact (Hcfg _ H2) |].
  unfold Bus.bind at 1.
  unfold Baro.read_calibration_data, Bus.bind at 1, Bus.read_i2c_block_data.
  change (Bus.ReadBlockData _ _ 24) with baro_calib_read.
  rewrite (transact_answered _ _ _ _ (Hcal _)).
  unfold Bus.lift. rewrite Hparse, Hpoll.
  unfold baro_traffic, baro_init. rewrite <- !app_assoc. reflexivity.
Qed.

Lemma baro_main_steady_run_witness :
  Baro.main steady_bus (fun _ _ => Ret tt) 3 [] =
    (Ret Baro.MeasurementStopped, [] ++ baro_traffic 3).
Proof.
  eapply (baro_main_steady_run steady_bus (fun _ _ => Ret tt) 3 []
            ref_frame ref_data ref_dig 415148 519888).
  - intros h'. discriminate.
  - intros h'. discriminate.
  - intros h'. reflexivity.
  - intros h'. reflexivity.
  - vm_compute. reflexivity.
  - reflexivity.
  - vm_compute. reflexivity.
  - reflexivity.
Defined.

(** ** The magnetometer on the bus *)

Section HallBus.

Lemma beInt16_range (hi lo : Z) :
  is_byte hi -> is_byte lo -> -32768 <= Hall3dh.beInt16 hi lo <= 32767.
Proof.
  intros Hhi Hlo. unfold Hall3dh.beInt16.
  rewrite be16_value by assumption. unfold is_byte in *.
  destruct (Z.gtb_spec (hi * 256 + lo) 32767); lia.
Qed.

Lemma decode_axes_returns (data : list Z) :
  (7 <= length data)%nat -> exists xyz, Hall3dh.decode_axes data = Ret xyz.
Proof.
  intros Hlen. unfold Hall3dh.decode_axes.
  destruct (list_getitem_valid data 1) as (d1 & -> & _); [lia |].
  destruct (list_getitem_valid data 2) as (d2 & -> & _); [lia |].
  destruct (list_getitem_valid data 3) as (d3 & -> & _); [lia |].
  destruct (list_getitem_valid data 4) as (d4 & -> & _); [lia |].
  destruct (list_getitem_valid data 5) as (d5 & -> & _); [lia |].
  destruct (list_getitem_valid data 6) as (d6 & -> & _); [lia |].
  cbn [Py.bind]. eauto.
Qed.

Lemma decode_axes_raises (data : list Z) (e : exn) :
  Hall3dh.decode_axes data = Raise e -> e = IndexError /\ (length data < 7)%nat.
Proof.
  intros Hraise. split.
  - revert Hraise. unfold Hall3dh.decode_axes.
    repeat match goal with
           | |- context [list_getitem data ?i] =>
               let H := fresh "Hi" in
               destruct (list_getitem data i) eqn:H; cbn [Py.bind];
               [| intros [= <-]; exact (list_getitem_raises _ _ _ H)]
           end.
    discriminate.
  - destruct (Nat.lt_ge_cases (length data) 7) as [Hlt | Hge]; [exact Hlt |].
    destruct (decode_axes_returns data Hge) as [xyz Hxyz]. congruence.
Qed.

Lemma decode_axes_length (data : list Z) (xyz : Z * Z * Z) :
  Hall3dh.decode_axes data = Ret xyz -> (7 <= length data)%nat.
Proof.
  intros Hdec.
  destruct (Nat.lt_ge_cases (length data) 7) as [Hlt | Hge]; [| exact Hge].
  exfalso. revert Hlt Hdec.
  do 7 (destruct data as [| ? data]; [discriminate |]).
  cbn [length]. lia.
Qed.

Lemma list_getitem_tail (a b : Z) (l : list Z) (i : Z) :
  0 < i -> list_getitem (a :: l) i = list_getitem (b :: l) i.
Proof.
  intros Hi. unfold list_getitem. cbn [length].
  destruct (Z.ltb_spec i 0); [lia |].
  destruct (Z.to_nat i) as [| k] eqn:Hk; [lia |]. reflexivity.
Qed.

End HallBus.

(** X14: the magnetometer [read_data] makes exactly one transfer, the
    7-byte read with command 0x4E.  It never raises [OSError]: a failed
    transfer gives [None].  It raises [IndexError] exactly when the bus hands
    back fewer than seven bytes, and otherwise returns the three values
    decoded from the frame. *)
Theorem hall_read_data_contract
    (bus : Bus.SMBus) (h h' : list Bus.request)
    (out : outcome (option (Z * Z * Z))) :
  Hall3dh.read_data bus h = (out, h') ->
  h' = h ++ [Bus.ReadBlockData 0x0C 0x4E 7] /\
  match out with
  | Raise e =>
      e = IndexError /\
      exists data,
        bus h hall_measurement_read = Some data /\ (length data < 7)%nat
  | Ret None => bus h hall_measurement_read = None
  | Ret (Some xyz) =>
      exists data,
        bus h hall_measurement_read = Some data /\ (7 <= length data)%nat /\
        Hall3dh.decode_axes data = Ret xyz
  end.
Proof.
  intros Hrun.
  pose proof (hall_read_data_history bus h) as Hh.
  rewrite Hrun in Hh. cbn [snd] in Hh. split; [exact Hh |].
  revert Hrun. unfold Hall3dh.read_data, Bus.read_i2c_block_data.
  change (Bus.ReadBlockData _ _ 7) with hall_measurement_read.
  destruct (bus h hall_measurement_read) as [data |] eqn:Hbus.
  - rewrite (transact_answered _ _ _ _ Hbus).
    unfold Bus.bind, Bus.lift, Bus.ret.
    destruct (Hall3dh.decode_axes data) as [xyz | e] eqn:Hdec;
      intros [= <- _].
    + exists data. split; [reflexivity |].
      split; [exact (decode_axes_length _ _ Hdec) | exact Hdec].
    + destruct (decode_axes_raises _ _ Hdec) as [-> Hlen]. eauto.
  - rewrite (transact_failed _ _ _ Hbus). intros [= <- _]. reflexivity.
Qed.

Lemma hall_read_data_contract_witness :
  [hall_measurement_read] = [] ++ [Bus.ReadBlockData 0x0C 0x4E 7] /\
  IndexError = IndexError /\
  exists data,
    short_frame_bus [] hall_measurement_read = Some data /\
    (length data < 7)%nat.
Proof.
  exact (hall_read_data_contract short_frame_bus [] [hall_measurement_read]
           (Raise IndexError) eq_refl).
Defined.

(** X15: the three values decoded from a frame of bytes lie in the signed
    16-bit range, and they do not depend on the status byte at the head of
    the frame nor on anything after its seventh byte. *)
Theorem decode_axes_range_status (data : list Z) (x y z : Z) :
  Forall is_byte data ->
  Hall3dh.decode_axes data = Ret (x, y, z) ->
  (-32768 <= x <= 32767 /\ -32768 <= y <= 32767 /\ -32768 <= z <= 32767) /\
  (forall st st' rest,
     data = st :: rest -> Hall3dh.decode_axes (st' :: rest) = Ret (x, y, z)) /\
  (forall extra, Hall3dh.decode_axes (data ++ extra) = Ret (x, y, z)).
Proof.
  intros Hbytes Hdec. split; [| split].
  - revert Hdec. unfold Hall3dh.decode_axes.
    repeat match goal with
           | |- context [list_getitem data ?i] =>
               let H := fresh "Hi" in
               destruct (list_getitem data i) eqn:H; cbn [Py.bind];
               [apply (list_getitem_byte _ _ _ Hbytes) in H | discriminate]
           end.
    intros [= <- <- <-]. repeat split; apply beInt16_range; assumption.
  - intros st st' rest ->. rewrite <- Hdec. unfold Hall3dh.decode_axes.
    rewrite !(list_getitem_tail st' st) by lia. reflexivity.
  - intros extra. rewrite <- Hdec.
    pose proof (decode_axes_length _ _ Hdec) as Hlen.
    unfold Hall3dh.decode_axes.
    rewrite !list_getitem_app_l by lia. reflexivity.
Qed.

Lemma decode_axes_range_status_witness :
  Hall3dh.decode_axes [0xFF; 0xFF; 0x38; 0x01; 0x2C; 0xFF; 0xFF] =
    Ret (-200, 300, -1).
Proof.
  refine (proj1 (proj2 (decode_axes_range_status
            [0x03; 0xFF; 0x38; 0x01; 0x2C; 0xFF; 0xFF] (-200) 300 (-1) _ _))
          0x03 0xFF _ eq_refl).
  - repeat constructor; unfold is_byte; lia.
  - reflexivity.
Defined.

(** ** The magnetometer main program *)

Section HallMain.

Variable bus : Bus.SMBus.
Variable float_pow : float -> float -> float.
Variable report : Z -> Z -> Z -> float -> outcome unit.

Lemma start_measurement_cases (h : list Bus.request) :
  (bus h hall_start_write = None /\
   Hall3dh.start_measurement bus h = (Raise SystemExit, h ++ [hall_start_write])) \/
  (bus h hall_start_write <> None /\
   Hall3dh.start_measurement bus h = (Ret tt, h ++ [hall_start_write])).
Proof.
  unfold Hall3dh.start_measurement, Bus.try_except, Bus.write_byte, Bus.bind.
  change (Bus.WriteByte _ _) with hall_start_write.
  destruct (bus h hall_start_write) as [d |] eqn:Hbus.
  - right. rewrite (transact_answered _ _ _ _ Hbus). split; [congruence | reflexivity].
  - left. rewrite (transact_failed _ _ _ Hbus). auto.
Qed.




End HallMain.

(** X16: when the start command is not acknowledged, [start_measurement]
    does not raise [OSError] but [SystemExit], and the main program ends
    there: no measurement read follows the failed start. *)
Theorem hall_failed_start_exits
    (bus : Bus.SMBus) (float_pow : float -> float -> float)
    (report : Z -> Z -> Z -> float -> outcome unit)
    (n : nat) (h : list Bus.request) :
  bus h hall_start_write = None ->
  Hall3dh.start_measurement bus h =
    (Raise SystemExit, h ++ [Bus.WriteByte 0x0C 0x3E]) /\
  Hall3dh.main bus float_pow report (S n) h =
    (Raise SystemExit, h ++ [Bus.WriteByte 0x0C 0x3E]).
Proof.
  intros Hfail.
  destruct (start_measurement_cases bus h) as [(_ & Hstart) | (Hok & _)];
    [| contradiction].
  split; [exact Hstart |].
  unfold Hall3dh.main. cbn [Hall3dh.poll].
  unfold Bus.bind at 1, Hall3dh.cycle, Bus.bind at 1.
  rewrite Hstart. reflexivity.
Qed.

Lemma hall_failed_start_exits_witness :
  Hall3dh.main dead_bus PrimFloat.mul (fun _ _ _ _ => Ret tt) 5 [] =
    (Raise SystemExit, [hall_start_write]).
Proof.
  exact (proj2 (hall_failed_start_exits dead_bus PrimFloat.mul
                  (fun _ _ _ _ => Ret tt) 4 [] eq_refl)).
Defined.


(** X18: on a magnetometer that acknowledges every start command and
    answers every measurement read with a frame that decodes to values the
    reporting code accepts together with their magnitude, a run interrupted
    after [n] cycles ends normally after exactly [n] start commands, each
    followed by one read. *)
Theorem hall_main_steady_run
    (bus : Bus.SMBus) (float_pow : float -> float -> float)
    (report : Z -> Z -> Z -> float -> outcome unit)
    (n : nat) (h : list Bus.request) (data : list Z) (x y z : Z) :
  byte_writes_succeed bus ->
  (forall h', bus h' hall_measurement_read = Some data) ->
  Hall3dh.decode_axes data = Ret (x, y, z) ->
  report x y z (Hall3dh.magnitude float_pow x y z) = Ret tt ->
  Hall3dh.main bus float_pow report n h = (Ret tt, h ++ hall_cycles n).
Proof.
  intros Hw Hread Hdec Hrep.
  assert (Hcycle : forall h',
             Hall3dh.cycle bus float_pow report h' =
               (Ret tt, h' ++ [hall_start_write; hall_measurement_read])).
  { intros h'. unfold Hall3dh.cycle, Bus.bind at 1.
    destruct (start_measurement_cases bus h') as [(Hnone & _) | (_ & ->)].
    - destruct (Hw h' Hall3dh.DEVICE_ADDR 0x3E) as [d Hd].
      change (Bus.WriteByte _ _) with hall_start_write in Hd. congruence.
    - unfold Bus.bind, Hall3dh.read_data, Bus.read_i2c_block_data.
      change (Bus.ReadBlockData _ _ 7) with hall_measurement_read.
      rewrite (transact_answered _ _ _ _ (Hread _)).
      unfold Bus.bind, Bus.lift, Bus.ret. rewrite Hdec, Hrep, <- app_assoc.
      reflexivity. }
  assert (Hpoll : forall k h',
             Hall3dh.poll bus float_pow report k h' =
               (Raise KeyboardInterrupt, h' ++ hall_cycles k)).
  { induction k as [| k IH]; intros h'.
    - cbn. rewrite app_nil_r. reflexivity.
    - cbn [Hall3dh.poll hall_cycles]. unfold Bus.bind.
      rewrite Hcycle, IH, <- app_assoc. reflexivity. }
  unfold Hall3dh.main. rewrite Hpoll. reflexivity.
Qed.

Lemma hall_main_steady_run_witness :
  Hall3dh.main frame_bus PrimFloat.mul (fun _ _ _ _ => Ret tt) 2 [] =
    (Ret tt, [] ++ hall_cycles 2).
Proof.
  apply (hall_main_steady_run frame_bus PrimFloat.mul (fun _ _ _ _ => Ret tt)
           2 [] [0x03; 0xFF; 0x38; 0x01; 0x2C; 0xFF; 0xFF] (-200) 300 (-1)).
  - intros h' addr val. exists []. reflexivity.
  - intros h'. reflexivity.
  - reflexivity.
  - reflexivity.
Defined.

(** X19: the magnitude of a reading does not depend on the signs of its
    components: negating any of them leaves it unchanged, whatever the C
    library's [pow] computes, because the squares are exact integers. *)
Theorem magnitude_sign_invariant
    (float_pow : float -> float -> float) (x y z : Z) :
  Hall3dh.magnitude float_pow (- x) y z = Hall3dh.magnitude float_pow x y z /\
  Hall3dh.magnitude float_pow x (- y) z = Hall3dh.magnitude float_pow x y z /\
  Hall3dh.magnitude float_pow x y (- z) = Hall3dh.magnitude float_pow x y z /\
  Hall3dh.magnitude float_pow (Z.abs x) (Z.abs y) (Z.abs z) =
    Hall3dh.magnitude float_pow x y z.
Proof.
  unfold Hall3dh.magnitude.
  repeat split; do 2 f_equal; rewrite !Z.pow_2_r; lia.
Qed.

(** X20: the compensation reads the twelve coefficients and nothing else
    of the dictionary: two dictionaries that agree on them give the same
    outcome, whatever other keys they hold. *)
Theorem compensate_reads_only_coefficients
    (dig dig' : gmap string Z) (adc_p adc_t : Z) :
  (forall k, In k coefficient_names -> dig !! k = dig' !! k) ->
  Baro.compensate dig adc_p adc_t = Baro.compensate dig' adc_p adc_t.
Proof.
  intros Hsame.
  assert (Hget : forall k, In k coefficient_names ->
                           dict_getitem dig k = dict_getitem dig' k).
  { intros k Hin. unfold dict_getitem. rewrite (Hsame k Hin).
    reflexivity. }
  unfold Baro.compensate, Baro.temperature_fine, Baro.pressure_setup,
    Baro.pressure_pascal.
  rewrite !(Hget "T1"), !(Hget "T2"), !(Hget "T3"), !(Hget "P1"),
    !(Hget "P2"), !(Hget "P3"), !(Hget "P4"), !(Hget "P5"), !(Hget "P6"),
    !(Hget "P7"), !(Hget "P8"), !(Hget "P9")
    by (cbn; tauto).
  reflexivity.
Qed.

Lemma compensate_reads_only_coefficients_witness :
  Baro.compensate (<["serial" := 42]> ref_dig) 415148 519888 =
  Baro.compensate ref_dig 415148 519888.
Proof.
  apply (compensate_reads_only_coefficients (<["serial" := 42]> ref_dig) ref_dig).
  intros k Hin. cbn in Hin.
  repeat (destruct Hin as [<- | Hin]; [reflexivity |]). contradiction.
Defined.
